(** * BufferedBulkStream: a shallow embedding of lib/BufferedBulkStream.js

    The stream object ([this]), the two module-level variables the file
    shares between calls ([resumeFunction] and the undeclared, hence global,
    [writeBufferTotal]) and the events the stream emits are modelled by
    explicit state passing: every method takes the state and returns the new
    state together with the list of effects it performed, in order. *)

From Stdlib Require Import ZArith String List Bool Lia Permutation Sorted.
Import ListNotations.
Open Scope Z_scope.
Set Warnings "-register-all".

(** ** JavaScript values *)

(** The values that reach the stream: chunks, documents, error details.
    Numbers are the integers; an object lists its own properties, each name
    once. *)
Inductive value : Type :=
| Undefined
| Null
| Bool (b : bool)
| Num (n : Z)
| Str (s : string)
| Obj (fields : list (string * value))
| Arr (elems : list value).

(** ToBoolean: what [if( x )] and [!x] test. *)
Definition truthy (v : value) : bool :=
  match v with
  | Undefined | Null => false
  | Bool b => b
  | Num n => negb (n =? 0)
  | Str s => negb (String.eqb s EmptyString)
  | Obj _ | Arr _ => true
  end.

Inductive type_name : Type :=
| T_undefined | T_object | T_boolean | T_number | T_string.

(** [typeof v]; [typeof null] is ['object'], and so is an array's. *)
Definition typeof (v : value) : type_name :=
  match v with
  | Undefined => T_undefined
  | Null => T_object
  | Bool _ => T_boolean
  | Num _ => T_number
  | Str _ => T_string
  | Obj _ | Arr _ => T_object
  end.

Fixpoint lookup (k : string) (fields : list (string * value)) : value :=
  match fields with
  | [] => Undefined
  | (k', v) :: rest => if String.eqb k k' then v else lookup k rest
  end.

(** A computation either completes normally or throws (a TypeError is the
    only exception the modelled code can raise). *)
Inductive completion (A : Type) : Type :=
| Normal (a : A)
| Throw.
Arguments Normal {A} a.
Arguments Throw {A}.

(** [v.k] for the property names the stream reads ([_index], [_type], [_id],
    [data]): an own property of an object, absent on an array, and a
    TypeError on [null] and [undefined]. *)
Definition get (v : value) (k : string) : completion value :=
  match v with
  | Obj fields => Normal (lookup k fields)
  | Undefined | Null => Throw
  | _ => Normal Undefined
  end.

(** [a[i]], also what [a.slice( i, i+1 )[0]] evaluates to: [undefined] out
    of range. *)
Definition slot (a : list value) (i : nat) : value := nth i a Undefined.

(** ** The stream's state *)

(** [this.options], default [{ buffer: 1000, timeout: 1000, throttle: 20 }]. *)
Record Options : Type := mkOptions {
  opt_buffer : Z;
  opt_timeout : Z;
  opt_throttle : Z
}.

(** [this.stats]. *)
Record Stats : Type := mkStats {
  written : Z;
  inserted : Z;
  ok : Z;
  error : Z;
  active_requests : Z;
  retries : Z
}.

(** A [next] callback handed to [_write] is known by the number of its
    write; [Noop] is the initial [function(){}]. *)
Inductive callback : Type :=
| Noop
| Next (n : nat).

Record State : Type := mkState {
  buffer : list value;            (* this.buffer *)
  flooding : bool;                (* this.flooding *)
  options : Options;              (* this.options *)
  stats : Stats;                  (* this.stats *)
  timeout : bool;                 (* this.timeout: is a timer pending *)
  resumeFunction : callback;      (* var resumeFunction, module level *)
  writeBufferTotal : Z            (* assigned in flush without var: global *)
}.

Definition default_options : Options :=
  {| opt_buffer := 1000; opt_timeout := 1000; opt_throttle := 20 |}.

Definition zero_stats : Stats :=
  {| written := 0; inserted := 0; ok := 0; error := 0;
     active_requests := 0; retries := 0 |}.

(** [new BufferedBulkStream( client, options )].  [writeBufferTotal] does
    not exist yet; it is read only by the callbacks of calls that a flush
    has made, after that flush assigned it. *)
Definition BufferedBulkStream (o : option Options) : State :=
  {| buffer := [];
     flooding := false;
     options := match o with Some o => o | None => default_options end;
     stats := zero_stats;
     timeout := false;
     resumeFunction := Noop;
     writeBufferTotal := 0 |}.

Definition set_buffer (b : list value) (st : State) : State :=
  mkState b (flooding st) (options st) (stats st) (timeout st)
          (resumeFunction st) (writeBufferTotal st).
Definition set_flooding (f : bool) (st : State) : State :=
  mkState (buffer st) f (options st) (stats st) (timeout st)
          (resumeFunction st) (writeBufferTotal st).
Definition set_options (o : Options) (st : State) : State :=
  mkState (buffer st) (flooding st) o (stats st) (timeout st)
          (resumeFunction st) (writeBufferTotal st).
Definition set_stats (s : Stats) (st : State) : State :=
  mkState (buffer st) (flooding st) (options st) s (timeout st)
          (resumeFunction st) (writeBufferTotal st).
Definition set_timeout (t : bool) (st : State) : State :=
  mkState (buffer st) (flooding st) (options st) (stats st) t
          (resumeFunction st) (writeBufferTotal st).
Definition set_resumeFunction (f : callback) (st : State) : State :=
  mkState (buffer st) (flooding st) (options st) (stats st) (timeout st)
          f (writeBufferTotal st).
Definition set_writeBufferTotal (n : Z) (st : State) : State :=
  mkState (buffer st) (flooding st) (options st) (stats st) (timeout st)
          (resumeFunction st) n.

Definition add_written (n : Z) (s : Stats) : Stats :=
  mkStats (written s + n) (inserted s) (ok s) (error s)
          (active_requests s) (retries s).
Definition add_inserted (n : Z) (s : Stats) : Stats :=
  mkStats (written s) (inserted s + n) (ok s) (error s)
          (active_requests s) (retries s).
Definition add_ok (n : Z) (s : Stats) : Stats :=
  mkStats (written s) (inserted s) (ok s + n) (error s)
          (active_requests s) (retries s).
Definition add_error (n : Z) (s : Stats) : Stats :=
  mkStats (written s) (inserted s) (ok s) (error s + n)
          (active_requests s) (retries s).
Definition add_active_requests (n : Z) (s : Stats) : Stats :=
  mkStats (written s) (inserted s) (ok s) (error s)
          (active_requests s + n) (retries s).
Definition add_retries (n : Z) (s : Stats) : Stats :=
  mkStats (written s) (inserted s) (ok s) (error s)
          (active_requests s) (retries s + n).

Definition throttle (st : State) : Z := opt_throttle (options st).

(** ** The backend's reply and the events *)

(** One entry of [resp.items]: [item.index.status] and [item.index.error]. *)
Record Item : Type := mkItem {
  status : Z;
  detail : value
}.

(** The [resp] argument of the bulk callback: absent (falsy), or an object
    whose [items] is a list or is missing. *)
Inductive Response : Type :=
| NoResponse
| Resp (items : option (list Item)).

Definition items_of (resp : Response) : option (list Item) :=
  match resp with
  | NoResponse => None
  | Resp items => items
  end.

(** Third argument of [new IndexError( message, payload, resp )]: the whole
    reply for a batch-level error, one item for an item-level one. *)
Inductive raw : Type :=
| RawResp (r : Response)
| RawItem (i : Item).

(** Modelled from the spec: lib/IndexError.js is not part of the sources; an
    error event "includes a human-readable cause and, when applicable, the
    offending document and raw backend item", so an IndexError is kept as
    the three arguments of its constructor. *)
Record IndexError : Type := mkIndexError {
  cause : value;
  payload : value;
  backend : raw
}.

(** The object [emitStats] emits. *)
Module Snapshot.
Record t : Type := mk {
  written : Z;
  indexed : Z;
  errored : Z;
  retries : Z;
  active_requests : Z;
  queued : Z
}.
End Snapshot.

Inductive effect : Type :=
| Emit_error_text (msg : string)        (* this.emit( 'error', '...' ) *)
| Emit_error (e : IndexError)           (* this.emit( 'error', new IndexError ) *)
| Emit_stats (s : Snapshot.t)           (* this.emit( 'stats', {...} ) *)
| Client_bulk (body : list value)       (* this.client.bulk( { body: ... }, cb ) *)
| Call (f : callback)                   (* next() / resumeFunction() *)
| Clear_timeout
| Set_timeout (delay : Z).

(** ** emitStats *)

Definition snapshot (st : State) : Snapshot.t :=
  {| Snapshot.written := written (stats st) - retries (stats st);
     Snapshot.indexed := inserted (stats st);
     Snapshot.errored := error (stats st);
     Snapshot.retries := retries (stats st);
     Snapshot.active_requests := active_requests (stats st);
     Snapshot.queued := written (stats st) - inserted (stats st)
                        - error (stats st) - retries (stats st) |}.

Definition emitStats (st : State) : list effect := [Emit_stats (snapshot st)].

(** ** batch: the adaptive throttle step *)

(** [climb] is the outcome of [Math.random() > 0.9], which the code
    evaluates only when [hasFailures] is false. *)
Definition batch_throttle (hasFailures climb : bool) (t : Z) : Z :=
  if hasFailures then
    let t := t - 2 in
    if t <? 20 then 20 else t
  else if climb then t + 1
  else t.

Definition batch (hasFailures climb : bool) (st : State) : State :=
  set_options
    (mkOptions (opt_buffer (options st)) (opt_timeout (options st))
               (batch_throttle hasFailures climb (throttle st)))
    st.

(** ** flush *)

(** [this.buffer.length / 2 < this.options.buffer]: over the reals, half of
    the length is below [b] exactly when the length is below [2 * b]. *)
Definition pairs_below (len : nat) (b : Z) : bool := Z.of_nat len <? 2 * b.

(** [splice( 0, n )] removes [min( max( n, 0 ), length )] leading elements
    and returns them. *)
Definition splice0 (n : Z) (a : list value) : list value * list value :=
  (firstn (Z.to_nat n) a, skipn (Z.to_nat n) a).

(** [writeBuffer.length / 2]: the quotient is exact on the even lengths,
    which are the only ones a run of the stream produces (the invariant of
    the reachable states, proved at the end). *)
Definition half (len : nat) : Z := Z.of_nat len / 2.

Definition flush (force : bool) (st : State) : State * list effect :=
  if (length (buffer st) <? 2)%nat then (st, [])
  else if negb force && pairs_below (length (buffer st)) (opt_buffer (options st))
  then (st, [])
  else
    let '(writeBuffer, rest) := splice0 (opt_buffer (options st) * 2) (buffer st) in
    let st := set_buffer rest st in
    let st := set_writeBufferTotal (half (length writeBuffer)) st in
    let st := set_stats (add_written (writeBufferTotal st) (stats st)) st in
    let st := set_stats (add_active_requests 1 (stats st)) st in
    let st := if throttle st <=? active_requests (stats st)
              then set_flooding true st else st in
    (st, Client_bulk writeBuffer :: emitStats st).

(** ** validateBulkResponse *)

(** The object [responseCodes]: status code to the positions that returned
    it, properties in creation order. *)
Abbreviation codes_map := (list (Z * list nat)) (only parsing).

(** [if( !codes[ k ] ){ codes[ k ] = []; } codes[ k ].push( i )]. *)
Fixpoint codes_push (codes : codes_map) (k : Z) (i : nat) : codes_map :=
  match codes with
  | [] => [(k, [i])]
  | (k', l) :: rest =>
      if k =? k' then (k', l ++ [i]) :: rest
      else (k', l) :: codes_push rest k i
  end.

(** The [reduce] over [resp.items], from position [i] on: the map and the
    [hasFailures] flag. *)
Fixpoint reduce_items (items : list Item) (i : nat) (acc : codes_map * bool)
  : codes_map * bool :=
  match items with
  | [] => acc
  | item :: rest =>
      let codes := codes_push (fst acc) (status item) i in
      let hasFailures := if status item =? 503 then true else snd acc in
      reduce_items rest (S i) (codes, hasFailures)
  end.

(** Property names that are array indices: [for( code in ... )] visits
    these first, in ascending numeric order, then the others in creation
    order. *)
Definition is_array_index (k : Z) : bool := (0 <=? k) && (k <? 4294967295).

Fixpoint insert_entry (e : Z * list nat) (l : codes_map) : codes_map :=
  match l with
  | [] => [e]
  | e' :: rest =>
      if fst e <=? fst e' then e :: l else e' :: insert_entry e rest
  end.

Fixpoint sort_entries (l : codes_map) : codes_map :=
  match l with
  | [] => []
  | e :: rest => insert_entry e (sort_entries rest)
  end.

Definition for_in (codes : codes_map) : codes_map :=
  sort_entries (filter (fun e => is_array_index (fst e)) codes)
  ++ filter (fun e => negb (is_array_index (fst e))) codes.

Definition command_pair (writeBuffer : list value) (i : nat) : list value :=
  [slot writeBuffer (i * 2); slot writeBuffer (i * 2 + 1)].

(** One turn of the [forEach] of the 503 branch. *)
Definition retry_item (writeBuffer : list value) (st : State) (i : nat) : State :=
  let st := set_buffer (buffer st ++ command_pair writeBuffer i) st in
  set_stats (add_retries 1 (stats st)) st.

Definition error_400 (writeBuffer : list value) (items : list Item) (i : nat)
  : effect :=
  let item := nth i items (mkItem 0 Undefined) in
  Emit_error (mkIndexError (detail item) (slot writeBuffer (i * 2 + 1)) (RawItem item)).

Definition error_unknown (writeBuffer : list value) (items : list Item) (i : nat)
  : effect :=
  let item := nth i items (mkItem 0 Undefined) in
  Emit_error (mkIndexError (Str "unknown response code")
                           (slot writeBuffer (i * 2 + 1)) (RawItem item)).

(** The body of [for( var code in responseCodes )] for one property. *)
Definition classify_code (writeBuffer : list value) (items : list Item)
  (acc : State * list effect) (e : Z * list nat) : State * list effect :=
  let '(st, out) := acc in
  let '(code, positions) := e in
  if code =? 200 then
    (set_stats (add_inserted (Z.of_nat (length positions)) (stats st)) st, out)
  else if code =? 201 then
    (set_stats (add_inserted (Z.of_nat (length positions)) (stats st)) st, out)
  else if code =? 503 then
    (fold_left (retry_item writeBuffer) positions st, out)
  else if code =? 400 then
    (set_stats (add_error (Z.of_nat (length positions)) (stats st)) st,
     out ++ map (error_400 writeBuffer items) positions)
  else
    (set_stats (add_error (Z.of_nat (length positions)) (stats st)) st,
     out ++ map (error_unknown writeBuffer items) positions).

Definition validateBulkResponse (writeBuffer : list value) (items : list Item)
  (climb : bool) (st : State) : State * list effect :=
  let '(responseCodes, hasFailures) := reduce_items items 0%nat ([], false) in
  let st := batch hasFailures climb st in
  fold_left (classify_code writeBuffer items) (for_in responseCodes) (st, []).

(** ** The callback given to client.bulk *)

(** [writeBuffer] is the closure's own; [writeBufferTotal] is read from the
    global at the time the callback runs. *)
Definition bulk_callback (writeBuffer : list value) (err : value)
  (resp : Response) (climb : bool) (st : State) : State * list effect :=
  let st := set_stats (add_active_requests (-1) (stats st)) st in
  if truthy err then
    (set_stats (add_error (writeBufferTotal st) (stats st)) st,
     [Emit_error (mkIndexError err Null (RawResp resp))])
  else
    match items_of resp with
    | None =>
        (set_stats (add_error (writeBufferTotal st) (stats st)) st,
         [Emit_error (mkIndexError
                        (Str "invalid resp from es bulk index operation")
                        Null (RawResp resp))])
    | Some items =>
        let '(st, out) := validateBulkResponse writeBuffer items climb st in
        let '(st, resumed) :=
          if (active_requests (stats st) <? throttle st) && flooding st
          then (set_flooding false st, [Call (resumeFunction st)])
          else (st, []) in
        (st, out ++ resumed ++ emitStats st)
    end.

(** ** parseChunk and _write *)

Definition bind {A B : Type} (c : completion A) (k : A -> completion B)
  : completion B :=
  match c with
  | Normal a => k a
  | Throw => Throw
  end.

Notation "x <- c ;; k" := (bind c (fun x => k))
  (at level 61, c at next level, right associativity).
Notation "' p <- c ;; k" := (bind c (fun p => k))
  (at level 61, p pattern, c at next level, right associativity).

Section Stream.

(** [JSON.parse]: [None] when it throws a SyntaxError, which [parseChunk]
    catches. *)
Variable JSON_parse : string -> option value.

(** Returns the record, or nothing after emitting an error. *)
Definition parseChunk (chunk : value) : completion (option value * list effect) :=
  match (match chunk with Str s => JSON_parse s | _ => Some chunk end) with
  | None => Normal (None, [Emit_error_text "failed to parse JSON chunk"])
  | Some chunk =>
      match typeof chunk with
      | T_object =>
          _index <- get chunk "_index";;
          if negb (truthy _index)
          then Normal (None, [Emit_error_text "invalid index specified"])
          else
            _type <- get chunk "_type";;
            if negb (truthy _type)
            then Normal (None, [Emit_error_text "invalid type specified"])
            else
              _id <- get chunk "_id";;
              if negb (truthy _id)
              then Normal (None, [Emit_error_text "invalid id specified"])
              else Normal (Some chunk, [])
      | _ => Normal (None, [Emit_error_text "invalid bulk API message"])
      end
  end.

(** The action descriptor [{ index: { _index: .., _type: .., _id: .. } }]. *)
Definition action (_index _type _id : value) : value :=
  Obj [("index"%string,
        Obj [("_index"%string, _index); ("_type"%string, _type);
             ("_id"%string, _id)])].

Definition _write (chunk : value) (next : nat) (st : State)
  : completion (State * list effect) :=
  '(record, parsed) <- parseChunk chunk;;
  let st :=
    set_stats (match record with
               | Some _ => add_ok 1 (stats st)
               | None => add_error 1 (stats st)
               end) st in
  '(st, flushed) <-
     match record with
     | Some record =>
         _index <- get record "_index";;
         _type <- get record "_type";;
         _id <- get record "_id";;
         data <- get record "data";;
         Normal (flush false
                   (set_buffer (buffer st ++ [action _index _type _id; data]) st))
     | None => Normal (st, [])
     end;;
  let st := set_timeout true st in
  let st := set_resumeFunction (Next next) st in
  Normal (st,
          parsed ++ flushed
          ++ [Clear_timeout; Set_timeout (opt_timeout (options st))]
          ++ (if flooding st then [] else [Call (Next next)])).

(** ** The stream together with its pending backend calls *)

(** [in_flight] holds the [writeBuffer] of every [client.bulk] call whose
    callback has not run yet, oldest first. *)
Record System : Type := mkSystem {
  stream : State;
  in_flight : list (list value)
}.

Inductive input : Type :=
| Write (chunk : value) (next : nat)   (* the producer writes a chunk *)
| Timer                                (* the inactivity timer fires *)
| Flush (force : bool)                 (* flush called from outside, as on 'end' *)
| Complete (k : nat) (err : value) (resp : Response) (climb : bool).
                                       (* the k-th pending call calls back *)

Fixpoint dispatched (out : list effect) : list (list value) :=
  match out with
  | [] => []
  | Client_bulk body :: rest => body :: dispatched rest
  | _ :: rest => dispatched rest
  end.

Fixpoint remove_nth {A : Type} (k : nat) (l : list A) : list A :=
  match l, k with
  | [], _ => []
  | _ :: rest, O => rest
  | x :: rest, S k => x :: remove_nth k rest
  end.

Definition after (sys : System) (r : State * list effect)
  : System * list effect :=
  (mkSystem (fst r) (in_flight sys ++ dispatched (snd r)), snd r).

(** One event of the event loop; [None] when the event cannot happen (no
    timer pending, no such pending call) or the handler throws. *)
Definition step (sys : System) (i : input) : option (System * list effect) :=
  match i with
  | Write chunk next =>
      match _write chunk next (stream sys) with
      | Normal r => Some (after sys r)
      | Throw => None
      end
  | Timer =>
      if timeout (stream sys)
      then Some (after sys (flush true (set_timeout false (stream sys))))
      else None
  | Flush force => Some (after sys (flush force (stream sys)))
  | Complete k err resp climb =>
      match nth_error (in_flight sys) k with
      | Some writeBuffer =>
          Some (after (mkSystem (stream sys) (remove_nth k (in_flight sys)))
                      (bulk_callback writeBuffer err resp climb (stream sys)))
      | None => None
      end
  end.

Fixpoint run (sys : System) (ins : list input) : option (System * list effect) :=
  match ins with
  | [] => Some (sys, [])
  | i :: rest =>
      match step sys i with
      | Some (sys', out) =>
          match run sys' rest with
          | Some (sys'', out') => Some (sys'', out ++ out')
          | None => None
          end
      | None => None
      end
  end.

Definition start (o : option Options) : System :=
  mkSystem (BufferedBulkStream o) [].

Inductive reachable (o : option Options) : System -> Prop :=
| reachable_start : reachable o (start o)
| reachable_step sys i sys' out :
    reachable o sys -> step sys i = Some (sys', out) -> reachable o sys'.

End Stream.

(** ** What the claims speak about *)

(** Positions of the items that returned status [c], ascending, counted
    from [i]. *)
Fixpoint positions_from (c : Z) (i : nat) (items : list Item) : list nat :=
  match items with
  | [] => []
  | item :: rest =>
      if status item =? c then i :: positions_from c (S i) rest
      else positions_from c (S i) rest
  end.

Definition positions (c : Z) (items : list Item) : list nat :=
  positions_from c 0 items.

(** [codes[ c ]], or no position when the property is absent. *)
Fixpoint entry_of (c : Z) (codes : codes_map) : list nat :=
  match codes with
  | [] => []
  | (k, l) :: rest => if c =? k then l else entry_of c rest
  end.

(** The positions the loop of [validateBulkResponse] handles under code
    [c] while it walks the properties [es]. *)
Definition select (c : Z) (es : codes_map) : list nat :=
  flat_map (fun e => if fst e =? c then snd e else []) es.

(** Number of buffered Command Pairs. *)
Definition pair_count (st : State) : Z := Z.of_nat (length (buffer st)) / 2.

Definition even_length (a : list value) : Prop := Nat.Even (length a).

Definition stats_events (out : list effect) : list Snapshot.t :=
  flat_map (fun e => match e with Emit_stats s => [s] | _ => [] end) out.

Definition error_events (out : list effect) : list effect :=
  filter (fun e => match e with
                   | Emit_error_text _ | Emit_error _ => true
                   | _ => false
                   end) out.

Definition resumed (out : list effect) : list callback :=
  flat_map (fun e => match e with Call f => [f] | _ => [] end) out.

(** What classification leaves alone: everything but the buffer, the
    throttle and the three response counters. *)
Definition same_frame (st st' : State) : Prop :=
  flooding st' = flooding st
  /\ timeout st' = timeout st
  /\ resumeFunction st' = resumeFunction st
  /\ writeBufferTotal st' = writeBufferTotal st
  /\ written (stats st') = written (stats st)
  /\ ok (stats st') = ok (stats st)
  /\ active_requests (stats st') = active_requests (stats st).

Definition is_emit_error (e : effect) : bool :=
  match e with
  | Emit_error _ => true
  | _ => false
  end.

(** A sequence of calls of [batch], each with its [hasFailures] flag and
    the outcome of its random draw. *)
Definition adjust (calls : list (bool * bool)) (st : State) : State :=
  fold_left (fun st c => batch (fst c) (snd c) st) calls st.

(** ** Concrete runs *)

(** A [JSON.parse] for the runs below, none of which writes a string. *)
Definition no_json (s : string) : option value := None.

Definition doc (n : Z) : value := Obj [("name"%string, Num n)].

(** A well-formed record with id [n] (non-zero, so that it is truthy). *)
Definition record (n : Z) : value :=
  Obj [("_index"%string, Str "places"); ("_type"%string, Str "poi");
       ("_id"%string, Num n); ("data"%string, doc n)].

Definition replied (codes : list Z) : Response :=
  Resp (Some (map (fun c => mkItem c Undefined) codes)).

(** [batch_size] 2: two records are shipped, a third is buffered, and the
    backend answers 503 for both shipped items. *)
Definition three_pairs_buffered : list input :=
  [Write (record 1) 0; Write (record 2) 1; Write (record 3) 2;
   Complete 0 Undefined (replied [503; 503]) false].

(** A record without [_index]. *)
Definition record_without_index : value :=
  Obj [("_type"%string, Str "poi"); ("_id"%string, Num 7);
       ("data"%string, doc 7)].

(** [batch_size] 2: a full batch of two pairs is shipped, then the timer
    ships a batch of one pair; both calls are pending. *)
Definition two_batches_pending : list input :=
  [Write (record 1) 0; Write (record 2) 1; Write (record 3) 2; Timer].

(** [batch_size] 1, throttle 20: twenty records, each shipped at once. *)
Definition twenty_writes : list input :=
  map (fun n => Write (record (Z.of_nat (S n))) n) (seq 0 20).

(** The oldest pending call fails with a transport error, twenty times. *)
Definition twenty_failures : list input :=
  repeat (Complete 0 (Str "ECONNREFUSED") NoResponse false) 20.

(** [batch_size] 1: a record is rejected at intake, the next one is shipped
    and indexed. *)
Definition rejected_then_indexed : list input :=
  [Write record_without_index 0; Write (record 1) 1;
   Complete 0 Undefined (replied [201]) false].

(** [batch_size] 1: a record is shipped and the backend answers 503. *)
Definition shipped_then_503 : list input :=
  [Write (record 1) 0; Complete 0 Undefined (replied [503]) false].

(** The three identifying fields [parseChunk] checks, in its order. *)
Inductive field : Type := F_index | F_type | F_id.

Definition message_of (f : field) : string :=
  match f with
  | F_index => "invalid index specified"
  | F_type => "invalid type specified"
  | F_id => "invalid id specified"
  end.

(** The first of [_index], [_type], [_id] that is missing (falsy) among an
    object's properties. *)
Definition first_missing (fields : list (string * value)) : option field :=
  if negb (truthy (lookup "_index" fields)) then Some F_index
  else if negb (truthy (lookup "_type" fields)) then Some F_type
  else if negb (truthy (lookup "_id" fields)) then Some F_id
  else None.

(** The system [three_pairs_buffered] leads to. *)
Definition after_retries : System :=
  match run no_json (start (Some (mkOptions 2 1000 20))) three_pairs_buffered with
  | Some (sys, _) => sys
  | None => start None
  end.

(** ** Counting the items of a reply *)

(** Codes counted as inserted, and codes counted as errors (every code
    that is neither inserted nor retried). *)
Definition inserted_code (k : Z) : bool := (k =? 200) || (k =? 201).

Definition rejected_code (k : Z) : bool :=
  negb (k =? 200) && negb (k =? 201) && negb (k =? 503).

(** Number of items whose status satisfies [p]. *)
Definition count_if (p : Z -> bool) (items : list Item) : nat :=
  length (filter (fun item => p (status item)) items).

(** The positions the loop handles under the codes that satisfy [p]. *)
Definition select_if (p : Z -> bool) (es : codes_map) : list nat :=
  flat_map (fun e => if p (fst e) then snd e else []) es.

(** The error event for position [i] of a reply, under code [k]. *)
Definition item_error (writeBuffer : list value) (items : list Item) (k : Z)
  (i : nat) : effect :=
  if k =? 400 then error_400 writeBuffer items i
  else error_unknown writeBuffer items i.

(** The events the loop emits for one property of [responseCodes]. *)
Definition events_of (writeBuffer : list value) (items : list Item)
  (e : Z * list nat) : list effect :=
  if rejected_code (fst e) then map (item_error writeBuffer items (fst e)) (snd e)
  else [].

(** Pairs held by a list of batches: the sum of [length / 2]. *)
Definition pairs_of (batches : list (list value)) : Z :=
  fold_right (fun wb n => half (length wb) + n) 0 batches.

(** What [parseChunk] looks at: the chunk itself, or what [JSON.parse]
    makes of it when it is a string ([None] when that fails). *)
Definition decode (JSON_parse : string -> option value) (chunk : value)
  : option value :=
  match chunk with
  | Str s => JSON_parse s
  | _ => Some chunk
  end.

(** The Command Pair [_write] pushes for an object with properties
    [fields]. *)
Definition pair_for (fields : list (string * value)) : list value :=
  [action (lookup "_index" fields) (lookup "_type" fields) (lookup "_id" fields);
   lookup "data" fields].

(** What [_write] emits after parsing and flushing. *)
Definition write_tail (next : nat) (st : State) : list effect :=
  [Clear_timeout; Set_timeout (opt_timeout (options st))]
  ++ (if flooding st then [] else [Call (Next next)]).

(** ** Invariants of a run *)

(** What every state of a run started with options [o] satisfies. *)
Definition accounted (o : option Options) (sys : System) : Prop :=
  let st := stream sys in
  let o0 := options (BufferedBulkStream o) in
  opt_buffer (options st) = opt_buffer o0
  /\ opt_timeout (options st) = opt_timeout o0
  /\ Z.min 20 (opt_throttle o0) <= throttle st
  /\ active_requests (stats st) = Z.of_nat (length (in_flight sys))
  /\ 2 * written (stats st) + Z.of_nat (length (buffer st))
     = 2 * (ok (stats st) + retries (stats st))
  /\ 0 <= writeBufferTotal st
  /\ even_length (buffer st)
  /\ Forall even_length (in_flight sys).

(** An event of a run in which nothing is lost from the accounts: a write
    is a record that passes validation; a call that ends with a reply has
    one item per pair of its batch; a call that fails finds in
    [writeBufferTotal] the pair count of its own batch. *)
Definition clean (JSON_parse : string -> option value) (sys : System)
  (i : input) : bool :=
  match i with
  | Write chunk _ =>
      match decode JSON_parse chunk with
      | Some (Obj fields) =>
          match first_missing fields with
          | None => true
          | Some _ => false
          end
      | _ => false
      end
  | Timer | Flush _ => true
  | Complete k err resp _ =>
      match nth_error (in_flight sys) k with
      | Some wb =>
          if truthy err then writeBufferTotal (stream sys) =? half (length wb)
          else
            match items_of resp with
            | Some items => Z.of_nat (length items) =? half (length wb)
            | None => writeBufferTotal (stream sys) =? half (length wb)
            end
      | None => false
      end
  end.

Inductive clean_run (JSON_parse : string -> option value) (o : option Options)
  : System -> Prop :=
| clean_start : clean_run JSON_parse o (start o)
| clean_step sys i sys' out :
    clean_run JSON_parse o sys ->
    clean JSON_parse sys i = true ->
    step JSON_parse sys i = Some (sys', out) ->
    clean_run JSON_parse o sys'.

(** Are all the events of [ins], run from [sys], clean? *)
Fixpoint all_clean (JSON_parse : string -> option value) (sys : System)
  (ins : list input) : bool :=
  match ins with
  | [] => true
  | i :: rest =>
      clean JSON_parse sys i
      && match step JSON_parse sys i with
         | Some (sys', _) => all_clean JSON_parse sys' rest
         | None => false
         end
  end.

(** [batch_size] 2: two records are shipped, the reply indexes one and
    asks to retry the other, and a third record is shipped with it. *)
Definition retried_and_reshipped : list input :=
  [Write (record 1) 0; Write (record 2) 1;
   Complete 0 Undefined (replied [201; 503]) false; Write (record 3) 2].

Definition after_reshipping : System :=
  match run no_json (start (Some (mkOptions 2 1000 20))) retried_and_reshipped with
  | Some (sys, _) => sys
  | None => start None
  end.

(** ** Lemmas on the response-code map *)

Lemma entry_of_push c codes k i :
  entry_of c (codes_push codes k i)
  = if c =? k then entry_of c codes ++ [i] else entry_of c codes.
Proof.
  induction codes as [|[k' l] rest IH]; simpl.
  - destruct (c =? k); reflexivity.
  - destruct (k =? k') eqn:Hk; simpl.
    + apply Z.eqb_eq in Hk; subst k'.
      destruct (c =? k); reflexivity.
    + rewrite IH. destruct (c =? k') eqn:Hc; [|reflexivity].
      apply Z.eqb_eq in Hc; subst k'.
      destruct (c =? k) eqn:Hck; [|reflexivity].
      apply Z.eqb_eq in Hck; subst. rewrite Z.eqb_refl in Hk. discriminate.
Qed.

Lemma keys_push codes k i x :
  In x (map fst (codes_push codes k i)) <-> x = k \/ In x (map fst codes).
Proof.
  induction codes as [|[k' l] rest IH]; simpl.
  - intuition.
  - destruct (k =? k') eqn:Hk; simpl.
    + apply Z.eqb_eq in Hk; subst. intuition.
    + rewrite IH. intuition.
Qed.

Lemma NoDup_push codes k i :
  NoDup (map fst codes) -> NoDup (map fst (codes_push codes k i)).
Proof.
  induction codes as [|[k' l] rest IH]; simpl; intros H.
  - constructor; [intros []|constructor].
  - destruct (k =? k') eqn:Hk; simpl.
    + exact H.
    + inversion H as [|? ? Hin Hnd]; subst.
      constructor; [|auto].
      rewrite keys_push. intros [->|Hin']; [|contradiction].
      rewrite Z.eqb_refl in Hk. discriminate.
Qed.

Lemma reduce_items_spec items :
  forall i codes hf,
    NoDup (map fst codes) ->
    NoDup (map fst (fst (reduce_items items i (codes, hf))))
    /\ (forall c, entry_of c (fst (reduce_items items i (codes, hf)))
                  = entry_of c codes ++ positions_from c i items)
    /\ snd (reduce_items items i (codes, hf))
       = hf || negb (Nat.eqb (length (positions_from 503 i items)) 0).
Proof.
  induction items as [|item rest IH]; intros i codes hf Hnd;
    cbn [reduce_items positions_from fst snd].
  - repeat split; [assumption| |].
    + intros c. now rewrite app_nil_r.
    + now rewrite orb_false_r.
  - destruct (IH (S i) (codes_push codes (status item) i)
                (if status item =? 503 then true else hf)
                (NoDup_push _ _ _ Hnd)) as (H1 & H2 & H3).
    repeat split; [assumption| |].
    + intros c. rewrite H2, entry_of_push.
      rewrite (Z.eqb_sym (status item) c).
      destruct (c =? status item); [now rewrite <- app_assoc|reflexivity].
    + clear H1 H2. revert H3.
      destruct (status item =? 503); intros ->; simpl; [|reflexivity].
      now rewrite orb_true_r.
Qed.

Lemma select_absent c es :
  ~ In c (map fst es) -> select c es = [].
Proof.
  induction es as [|[k l] rest IH]; simpl; intros H; [reflexivity|].
  destruct (k =? c) eqn:Hk.
  - apply Z.eqb_eq in Hk. tauto.
  - apply IH. tauto.
Qed.

Lemma entry_of_absent c es :
  ~ In c (map fst es) -> entry_of c es = [].
Proof.
  induction es as [|[k l] rest IH]; simpl; intros H; [reflexivity|].
  destruct (c =? k) eqn:Hk.
  - apply Z.eqb_eq in Hk. subst. tauto.
  - apply IH. tauto.
Qed.

Lemma select_entry_of c es :
  NoDup (map fst es) -> select c es = entry_of c es.
Proof.
  induction es as [|[k l] rest IH]; simpl; intros H; [reflexivity|].
  inversion H as [|? ? Hin Hnd]; subst.
  rewrite (Z.eqb_sym k c).
  destruct (c =? k) eqn:Hk.
  - apply Z.eqb_eq in Hk; subst.
    fold (select k rest). rewrite select_absent by assumption.
    apply app_nil_r.
  - apply IH. assumption.
Qed.

Lemma insert_entry_perm e l : Permutation (insert_entry e l) (e :: l).
Proof.
  induction l as [|e' rest IH]; simpl; [reflexivity|].
  destruct (fst e <=? fst e'); [reflexivity|].
  rewrite IH. apply perm_swap.
Qed.

Lemma sort_entries_perm l : Permutation (sort_entries l) l.
Proof.
  induction l as [|e rest IH]; simpl; [reflexivity|].
  rewrite insert_entry_perm. now constructor.
Qed.

Lemma filter_split_perm {A : Type} (p : A -> bool) (l : list A) :
  Permutation (filter p l ++ filter (fun x => negb (p x)) l) l.
Proof.
  induction l as [|x rest IH]; simpl; [reflexivity|].
  destruct (p x); simpl.
  - now constructor.
  - rewrite <- Permutation_middle. now constructor.
Qed.

Lemma for_in_perm codes : Permutation (for_in codes) codes.
Proof.
  unfold for_in. rewrite sort_entries_perm.
  apply (filter_split_perm (fun e => is_array_index (fst e))).
Qed.

Lemma entry_of_perm c l l' :
  Permutation l l' -> NoDup (map fst l) -> entry_of c l = entry_of c l'.
Proof.
  induction 1 as [|[k v] l l' Hp IH|[k v] [k' v'] l|l l' l'' Hp IH Hp' IH'];
    intros Hnd; simpl.
  - reflexivity.
  - inversion Hnd; subst. rewrite IH by assumption. reflexivity.
  - destruct (c =? k') eqn:H1, (c =? k) eqn:H2; try reflexivity.
    apply Z.eqb_eq in H1, H2. subst.
    inversion Hnd as [|? ? Hin _]; subst. simpl in Hin. tauto.
  - rewrite IH by assumption. apply IH'.
    eapply Permutation_NoDup; [|exact Hnd].
    now apply Permutation_map.
Qed.

Lemma select_for_in c codes :
  NoDup (map fst codes) -> select c (for_in codes) = entry_of c codes.
Proof.
  intros Hnd.
  assert (Hp := for_in_perm codes).
  rewrite select_entry_of.
  - symmetry. apply entry_of_perm; [now symmetry|assumption].
  - eapply Permutation_NoDup; [|exact Hnd].
    apply Permutation_map. now symmetry.
Qed.

(** The loop visits, under code [c], exactly the positions of the items
    that returned [c], in the order of the reply. *)
Lemma select_reduce c items :
  select c (for_in (fst (reduce_items items 0 ([], false)))) = positions c items.
Proof.
  destruct (reduce_items_spec items 0 [] false) as (Hnd & Hent & _);
    [constructor|].
  rewrite select_for_in by assumption.
  apply Hent.
Qed.

(** ** Lemmas on the classification loop *)

Lemma same_frame_refl st : same_frame st st.
Proof. unfold same_frame; tauto. Qed.

Lemma same_frame_trans st1 st2 st3 :
  same_frame st1 st2 -> same_frame st2 st3 -> same_frame st1 st3.
Proof. unfold same_frame; intuition congruence. Qed.

Lemma length_command_pairs wb ps :
  length (flat_map (command_pair wb) ps) = (2 * length ps)%nat.
Proof. induction ps as [|p ps IH]; simpl; [reflexivity|]. rewrite IH. lia. Qed.

Lemma retry_fold wb ps :
  forall st,
    fold_left (retry_item wb) ps st
    = set_stats (add_retries (Z.of_nat (length ps)) (stats st))
        (set_buffer (buffer st ++ flat_map (command_pair wb) ps) st).
Proof.
  induction ps as [|p ps IH]; intros [b f o [w ins k e a r] t rf wbt].
  - unfold set_stats, set_buffer, add_retries; simpl.
    rewrite app_nil_r, Z.add_0_r. reflexivity.
  - cbn [fold_left]. rewrite IH.
    unfold retry_item, set_stats, set_buffer, add_retries.
    cbn [buffer flooding options stats timeout resumeFunction writeBufferTotal
         written inserted ok error active_requests retries flat_map length].
    rewrite <- app_assoc.
    replace (r + 1 + Z.of_nat (length ps)) with (r + Z.of_nat (S (length ps)))
      by lia.
    reflexivity.
Qed.

Lemma classify_code_spec wb items st out code ps :
  let r := classify_code wb items (st, out) (code, ps) in
  buffer (fst r)
  = buffer st ++ flat_map (command_pair wb) (if code =? 503 then ps else [])
  /\ retries (stats (fst r))
     = retries (stats st) + Z.of_nat (length (if code =? 503 then ps else []))
  /\ options (fst r) = options st
  /\ same_frame st (fst r)
  /\ exists errs, snd r = out ++ errs /\ forallb is_emit_error errs = true.
Proof.
  unfold classify_code.
  destruct (code =? 200) eqn:H200;
    [apply Z.eqb_eq in H200; subst code
    |destruct (code =? 201) eqn:H201;
     [apply Z.eqb_eq in H201; subst code
     |destruct (code =? 503) eqn:H503;
      [|destruct (code =? 400) eqn:H400]]];
    cbn [fst snd Z.eqb Pos.eqb flat_map length Z.of_nat];
    try rewrite retry_fold;
    unfold same_frame, set_stats, set_buffer, add_inserted, add_error, add_retries;
    cbn [buffer flooding options stats timeout resumeFunction writeBufferTotal
         written inserted ok error active_requests retries];
    rewrite ?app_nil_r, ?Z.add_0_r;
    repeat (split; [reflexivity|]);
    (split; [tauto|]).
  - exists []. now rewrite app_nil_r.
  - exists []. now rewrite app_nil_r.
  - exists []. now rewrite app_nil_r.
  - eexists; split; [reflexivity|].
    induction ps; simpl; auto.
  - eexists; split; [reflexivity|].
    induction ps; simpl; auto.
Qed.

Lemma classify_loop_spec wb items es :
  forall st out,
    let r := fold_left (classify_code wb items) es (st, out) in
    buffer (fst r) = buffer st ++ flat_map (command_pair wb) (select 503 es)
    /\ retries (stats (fst r))
       = retries (stats st) + Z.of_nat (length (select 503 es))
    /\ options (fst r) = options st
    /\ same_frame st (fst r)
    /\ exists errs, snd r = out ++ errs /\ forallb is_emit_error errs = true.
Proof.
  induction es as [|[code ps] es IH]; intros st out; cbn [fold_left].
  - simpl. rewrite app_nil_r, Z.add_0_r.
    repeat (split; [reflexivity|]).
    split; [apply same_frame_refl|].
    exists []. now rewrite app_nil_r.
  - destruct (classify_code_spec wb items st out code ps)
      as (Hb & Hr & Ho & Hf & errs & He & Hall).
    destruct (classify_code wb items (st, out) (code, ps)) as [st1 out1].
    cbn [fst snd] in *. subst out1.
    destruct (IH st1 (out ++ errs))
      as (Hb' & Hr' & Ho' & Hf' & errs' & He' & Hall').
    cbv zeta. unfold select in *. cbn [flat_map fst snd].
    rewrite flat_map_app, length_app, Hb', Hr', Ho', Hb, Hr, Ho, He'.
    rewrite <- !app_assoc, Nat2Z.inj_add, Z.add_assoc.
    repeat (split; [reflexivity|]).
    split; [eapply same_frame_trans; eassumption|].
    exists (errs ++ errs'). split; [reflexivity|].
    rewrite forallb_app, Hall, Hall'. reflexivity.
Qed.

(** The flag [reduce] computes: some item returned 503. *)
Lemma hasFailures_spec items :
  snd (reduce_items items 0 ([], false))
  = negb (Nat.eqb (length (positions 503 items)) 0).
Proof.
  destruct (reduce_items_spec items 0 [] false) as (_ & _ & H);
    [constructor|exact H].
Qed.

Lemma validateBulkResponse_spec wb items climb st :
  let r := validateBulkResponse wb items climb st in
  buffer (fst r) = buffer st ++ flat_map (command_pair wb) (positions 503 items)
  /\ retries (stats (fst r))
     = retries (stats st) + Z.of_nat (length (positions 503 items))
  /\ options (fst r)
     = options (batch (negb (Nat.eqb (length (positions 503 items)) 0)) climb st)
  /\ same_frame st (fst r)
  /\ forallb is_emit_error (snd r) = true.
Proof.
  unfold validateBulkResponse.
  pose proof (select_reduce 503 items) as Hsel.
  pose proof (hasFailures_spec items) as Hhf.
  destruct (reduce_items items 0 ([], false)) as [codes hf].
  cbn [fst snd] in Hsel, Hhf. subst hf.
  destruct (classify_loop_spec wb items (for_in codes)
              (batch (negb (Nat.eqb (length (positions 503 items)) 0)) climb st) [])
    as (Hb & Hr & Ho & Hf & errs & He & Hall).
  cbv zeta. rewrite Hb, Hr, Ho, Hsel, He.
  repeat (split; [reflexivity|]).
  split; [exact Hf|exact Hall].
Qed.

(** [positions] lists exactly the positions of the items with the given
    status, in ascending order. *)
Lemma positions_from_in c items :
  forall i j,
    In j (positions_from c i items)
    <-> (i <= j)%nat
        /\ exists item, nth_error items (j - i) = Some item /\ status item = c.
Proof.
  induction items as [|item rest IH]; intros i j; cbn [positions_from].
  - split; [intros []|intros (_ & item & H & _)].
    destruct (j - i)%nat; discriminate.
  - assert (Hrest : In j (positions_from c (S i) rest)
                    <-> (i < j)%nat
                        /\ exists it, nth_error (item :: rest) (j - i) = Some it
                                      /\ status it = c).
    { rewrite IH. split; intros (Hlt & it & Hn & Hs); (split; [lia|]);
        exists it; (split; [|assumption]).
      - replace (j - i)%nat with (S (j - S i)) by lia. exact Hn.
      - replace (j - i)%nat with (S (j - S i)) in Hn by lia. exact Hn. }
    destruct (status item =? c) eqn:Hc.
    + apply Z.eqb_eq in Hc. cbn [In]. rewrite Hrest. split.
      * intros [<-|(Hlt & H)]; [|split; [lia|exact H]].
        split; [lia|]. exists item. rewrite Nat.sub_diag. auto.
      * intros (Hle & it & Hn & Hs).
        destruct (Nat.eq_dec i j) as [->|Hne]; [now left|right].
        split; [lia|]. exists it. auto.
    + apply Z.eqb_neq in Hc. rewrite Hrest. split.
      * intros (Hlt & H). split; [lia|exact H].
      * intros (Hle & it & Hn & Hs).
        destruct (Nat.eq_dec i j) as [->|Hne].
        -- rewrite Nat.sub_diag in Hn. injection Hn as <-. contradiction.
        -- split; [lia|]. exists it. auto.
Qed.

Lemma positions_from_sorted c items :
  forall i, StronglySorted lt (positions_from c i items).
Proof.
  induction items as [|item rest IH]; intros i; cbn [positions_from].
  - constructor.
  - destruct (status item =? c); [|apply IH].
    constructor; [apply IH|].
    apply Forall_forall. intros j Hj.
    apply positions_from_in in Hj. lia.
Qed.

(** ** C1, C2: classification of a response *)

(** C1: for every response that is classified and every item of it with
    status 503 (the positions [positions 503 items], which are exactly the
    positions of those items, ascending), the Command Pair at slots 2i and
    2i+1 of the in-flight batch is appended to the buffer's tail, in the
    order of the batch; [retries] grows by one per such item; and when
    there is such an item, [batch] is called with [hasFailures] true. *)
Theorem C1_retry_503 (wb : list value) (items : list Item) (climb : bool)
  (st : State) :
  let st' := fst (validateBulkResponse wb items climb st) in
  let retried := positions 503 items in
  (forall i, In i retried
             <-> exists item, nth_error items i = Some item /\ status item = 503)
  /\ StronglySorted lt retried
  /\ buffer st' = buffer st ++ flat_map (command_pair wb) retried
  /\ (forall i, command_pair wb i = [nth (i * 2) wb Undefined;
                                     nth (i * 2 + 1) wb Undefined])
  /\ retries (stats st') = retries (stats st) + Z.of_nat (length retried)
  /\ (retried <> [] ->
      snd (reduce_items items 0 ([], false)) = true
      /\ options st' = options (batch true climb st)).
Proof.
  intros st' retried.
  destruct (validateBulkResponse_spec wb items climb st)
    as (Hb & Hr & Ho & _ & _).
  fold st' in Hb, Hr, Ho. fold retried in Hb, Hr, Ho.
  split.
  { intros i. unfold retried, positions. rewrite positions_from_in.
    rewrite Nat.sub_0_r. split; [intros (_ & H); exact H|].
    intros H. split; [lia|exact H]. }
  split; [apply positions_from_sorted|].
  split; [exact Hb|].
  split; [reflexivity|].
  split; [exact Hr|].
  intros Hne.
  assert (Hflag : negb (Nat.eqb (length retried) 0) = true).
  { destruct retried; [contradiction|reflexivity]. }
  rewrite hasFailures_spec. fold retried.
  rewrite Hflag in Ho |- *. auto.
Qed.

(** C2: a batch of 5 pairs whose items return 201, 503, 400, 201, 503:
    [inserted] grows by 2; [error] grows by 1 and the one event emitted is
    an error carrying the document of item 2 (slot 5 of the batch);
    [retries] grows by 2 and the pairs of items 1 and 4 are appended to
    the buffer, the pair of item 1 first. *)
Theorem C2_mixed_batch (wb : list value) (items : list Item) (climb : bool)
  (st : State) :
  length wb = 10%nat ->
  map status items = [201; 503; 400; 201; 503] ->
  let r := validateBulkResponse wb items climb st in
  inserted (stats (fst r)) = inserted (stats st) + 2
  /\ error (stats (fst r)) = error (stats st) + 1
  /\ snd r = [Emit_error
                (mkIndexError (detail (nth 2 items (mkItem 0 Undefined)))
                              (nth 5 wb Undefined)
                              (RawItem (nth 2 items (mkItem 0 Undefined))))]
  /\ retries (stats (fst r)) = retries (stats st) + 2
  /\ buffer (fst r)
     = buffer st ++ [nth 2 wb Undefined; nth 3 wb Undefined;
                     nth 8 wb Undefined; nth 9 wb Undefined].
Proof.
  intros _ Hs.
  destruct items as [|[s0 d0] [|[s1 d1] [|[s2 d2] [|[s3 d3] [|[s4 d4] [|]]]]]];
    try discriminate.
  cbn [map status] in Hs. injection Hs as -> -> -> -> ->.
  destruct st as [b f o [w ins k e a r] t rf wbt].
  cbv -[Z.add nth app]. cbn [nth app].
  rewrite <- app_assoc, <- !Z.add_assoc. cbn [app Z.add Pos.add Pos.succ].
  repeat split.
Qed.

Lemma C2_mixed_batch_witness :
  let wb := map Num [0; 1; 2; 3; 4; 5; 6; 7; 8; 9] in
  let items := map (fun s => mkItem s (Str "detail")) [201; 503; 400; 201; 503] in
  let r := validateBulkResponse wb items false (BufferedBulkStream None) in
  inserted (stats (fst r)) = 2
  /\ error (stats (fst r)) = 1
  /\ snd r = [Emit_error (mkIndexError (Str "detail") (Num 5)
                                       (RawItem (mkItem 400 (Str "detail"))))]
  /\ retries (stats (fst r)) = 2
  /\ buffer (fst r) = [Num 2; Num 3; Num 8; Num 9].
Proof.
  exact (C2_mixed_batch
           (map Num [0; 1; 2; 3; 4; 5; 6; 7; 8; 9])
           (map (fun s => mkItem s (Str "detail")) [201; 503; 400; 201; 503])
           false (BufferedBulkStream None) eq_refl eq_refl).
Defined.

(** ** C6: the throttle never drops below 20 *)

Lemma batch_throttle_floor hasFailures climb t :
  20 <= t -> 20 <= batch_throttle hasFailures climb t.
Proof.
  unfold batch_throttle. intros H.
  destruct hasFailures; [destruct (t - 2 <? 20) eqn:E|destruct climb];
    try apply Z.ltb_ge in E; lia.
Qed.

(** C6: over every sequence of calls of [batch], a throttle that starts at
    20 or more stays at 20 or more; a call with failures sets it to
    [max 20 (throttle - 2)], and a call without failures never lowers it. *)
Theorem C6_throttle_floor (calls : list (bool * bool)) (st : State) :
  20 <= throttle st ->
  20 <= throttle (adjust calls st)
  /\ (forall climb s, throttle (batch true climb s) = Z.max 20 (throttle s - 2))
  /\ (forall climb s, throttle s <= throttle (batch false climb s)).
Proof.
  intros H. split; [|split].
  - revert st H. unfold adjust.
    induction calls as [|[hf climb] calls IH]; intros st H; cbn [fold_left].
    + exact H.
    + apply IH. unfold throttle, batch, set_options; cbn [options opt_throttle].
      now apply batch_throttle_floor.
  - intros climb s. unfold batch, set_options, batch_throttle, throttle.
    cbn [options opt_throttle]. cbv zeta.
    destruct (opt_throttle (options s) - 2 <? 20) eqn:E;
      [apply Z.ltb_lt in E|apply Z.ltb_ge in E]; lia.
  - intros climb s. unfold batch, set_options, batch_throttle, throttle.
    cbn [options opt_throttle]. destruct climb; lia.
Qed.

Lemma C6_throttle_floor_witness :
  20 <= throttle
          (adjust [(true, false); (false, true); (true, true); (true, false)]
                  (BufferedBulkStream None)).
Proof.
  apply (C6_throttle_floor
           [(true, false); (false, true); (true, true); (true, false)]
           (BufferedBulkStream None)).
  vm_compute. discriminate.
Defined.

(** ** Lemmas on flush *)

Lemma flush_noop force st :
  (length (buffer st) < 2)%nat
  \/ (force = false
      /\ Z.of_nat (length (buffer st)) < 2 * opt_buffer (options st)) ->
  flush force st = (st, []).
Proof.
  unfold flush, pairs_below. intros [H|[-> H]].
  - apply Nat.ltb_lt in H. now rewrite H.
  - apply Z.ltb_lt in H. rewrite H.
    destruct (length (buffer st) <? 2)%nat; reflexivity.
Qed.

(** What a flush that passes both guards does. *)
Lemma flush_ships force st :
  (2 <= length (buffer st))%nat ->
  force = true \/ 2 * opt_buffer (options st) <= Z.of_nat (length (buffer st)) ->
  let n := Z.to_nat (opt_buffer (options st) * 2) in
  let writeBuffer := firstn n (buffer st) in
  exists st',
    flush force st = (st', [Client_bulk writeBuffer; Emit_stats (snapshot st')])
    /\ buffer st' = skipn n (buffer st)
    /\ stats st'
       = add_active_requests 1 (add_written (half (length writeBuffer)) (stats st))
    /\ options st' = options st
    /\ timeout st' = timeout st
    /\ resumeFunction st' = resumeFunction st
    /\ writeBufferTotal st' = half (length writeBuffer)
    /\ flooding st'
       = (flooding st || (throttle st <=? active_requests (stats st) + 1)).
Proof.
  intros Hlen Hgo n writeBuffer. unfold flush.
  replace (length (buffer st) <? 2)%nat with false
    by (symmetry; apply Nat.ltb_ge; exact Hlen).
  replace (negb force && pairs_below (length (buffer st)) (opt_buffer (options st)))
    with false.
  2:{ destruct Hgo as [->|H]; [reflexivity|].
      unfold pairs_below. apply Z.ltb_ge in H. rewrite H.
      now rewrite andb_false_r. }
  unfold splice0. fold n. fold writeBuffer.
  destruct st as [b f o [w ins k e a r] t rf wbt].
  unfold set_buffer, set_writeBufferTotal, set_stats, set_flooding, add_written,
    add_active_requests, throttle, emitStats.
  cbn [buffer flooding options stats timeout resumeFunction writeBufferTotal
       written inserted ok error active_requests retries].
  destruct (opt_throttle o <=? a + 1); eexists; split; try reflexivity;
    cbn [buffer flooding options stats timeout resumeFunction writeBufferTotal];
    rewrite ?orb_true_r, ?orb_false_r; repeat split.
Qed.

Lemma half_nonneg n : 0 <= half n.
Proof. unfold half. apply Z.div_pos; lia. Qed.

(** ** C3: the guards and the extraction of flush *)

Lemma div2_bounds n : 2 * (n / 2) <= n < 2 * (n / 2) + 2.
Proof.
  pose proof (Z.div_mod n 2) as H1.
  pose proof (Z.mod_pos_bound n 2) as H2.
  lia.
Qed.

Lemma pair_count_below st b :
  pair_count st < b -> Z.of_nat (length (buffer st)) < 2 * b.
Proof.
  unfold pair_count. intros H.
  pose proof (div2_bounds (Z.of_nat (length (buffer st)))). lia.
Qed.

(** C3, as the code has it: an unforced [flush] changes nothing (state and
    counters untouched, nothing emitted) when the pair count is below
    [options.buffer], and no [flush] does when the buffer holds fewer than
    2 elements; a forced [flush] with at least one pair buffered removes
    the first [min (pair count) (options.buffer)] pairs, which is every
    pair when the pair count is at most [options.buffer]. *)
Theorem C3_flush_guards_and_prefix (st : State) :
  (pair_count st < opt_buffer (options st) -> flush false st = (st, []))
  /\ ((length (buffer st) < 2)%nat -> forall force, flush force st = (st, []))
  /\ (1 <= pair_count st ->
      let st' := fst (flush true st) in
      buffer st' = skipn (Z.to_nat (opt_buffer (options st) * 2)) (buffer st)
      /\ pair_count st'
         = pair_count st
           - Z.min (pair_count st) (Z.max 0 (opt_buffer (options st)))
      /\ (even_length (buffer st) ->
          pair_count st <= opt_buffer (options st) -> buffer st' = [])).
Proof.
  split; [|split].
  - intros H. apply flush_noop. right. split; [reflexivity|].
    now apply pair_count_below.
  - intros H force. apply flush_noop. now left.
  - intros H st'.
    assert (Hlen : (2 <= length (buffer st))%nat).
    { unfold pair_count in H.
      pose proof (div2_bounds (Z.of_nat (length (buffer st)))). lia. }
    destruct (flush_ships true st Hlen (or_introl eq_refl))
      as (st1 & Hf & Hb & _).
    assert (Hst' : st' = st1) by (unfold st'; now rewrite Hf).
    rewrite Hst'. clear Hf Hst' st'.
    split; [exact Hb|]. split.
    + unfold pair_count in *. rewrite Hb, length_skipn.
      set (len := length (buffer st)) in *.
      set (b := opt_buffer (options st)).
      pose proof (div2_bounds (Z.of_nat len)) as H1.
      pose proof (div2_bounds (Z.of_nat (len - Z.to_nat (b * 2)))) as H2.
      lia.
    + intros [k Hk] Hle. unfold pair_count in Hle.
      apply length_zero_iff_nil. rewrite Hb, length_skipn.
      pose proof (div2_bounds (Z.of_nat (length (buffer st)))). lia.
Qed.

(** C3 as stated fails: with [options.buffer] 2 and three pairs buffered (a
    record waiting plus two pairs re-queued after a 503 reply), the forced
    flush ships two pairs and leaves the third in the buffer. *)
Lemma C3_forced_flush_leaves_a_pair :
  exists sys out,
    run no_json (start (Some (mkOptions 2 1000 20))) three_pairs_buffered
    = Some (sys, out)
    /\ pair_count (stream sys) = 3
    /\ buffer (fst (flush true (stream sys))) = [action (Str "places") (Str "poi") (Num 2); doc 2]
    /\ buffer (fst (flush true (stream sys))) <> [].
Proof.
  eexists. eexists. split; [vm_compute; reflexivity|].
  split; [reflexivity|]. split; [reflexivity|]. discriminate.
Qed.

(** ** Lemmas on the bulk callback *)

Lemma errors_dispatch_nothing errs :
  forallb is_emit_error errs = true ->
  dispatched errs = [] /\ stats_events errs = [] /\ resumed errs = [].
Proof.
  induction errs as [|e errs IH]; simpl; [auto|].
  destruct e; simpl; try discriminate. exact IH.
Qed.

Lemma dispatched_app a b : dispatched (a ++ b) = dispatched a ++ dispatched b.
Proof.
  induction a as [|e a IH]; simpl; [reflexivity|].
  destruct e; simpl; rewrite ?IH; reflexivity.
Qed.

(** A callback that reports a failure, or a reply without [items]: the
    error count grows by the current value of the global
    [writeBufferTotal], one error is emitted, and the callback returns
    before the flood control and the stats. *)
Lemma bulk_callback_failure wb err resp climb st :
  truthy err = true \/ items_of resp = None ->
  exists e,
    bulk_callback wb err resp climb st
    = (set_stats (add_error (writeBufferTotal st)
                            (add_active_requests (-1) (stats st))) st,
       [Emit_error e]).
Proof.
  unfold bulk_callback. intros H.
  destruct (truthy err); [eexists; reflexivity|].
  destruct H as [H|H]; [discriminate|]. rewrite H.
  eexists; reflexivity.
Qed.

(** A callback with a well-formed reply: classification, then the flood
    control, then the stats. *)
Lemma bulk_callback_success wb err resp items climb st :
  truthy err = false -> items_of resp = Some items ->
  let r := bulk_callback wb err resp climb st in
  let st0 := set_stats (add_active_requests (-1) (stats st)) st in
  let v := validateBulkResponse wb items climb st0 in
  let clear := (active_requests (stats (fst v)) <? throttle (fst v))
               && flooding (fst v) in
  fst r = (if clear then set_flooding false (fst v) else fst v)
  /\ snd r = snd v
             ++ (if clear then [Call (resumeFunction (fst v))] else [])
             ++ [Emit_stats (snapshot (fst r))].
Proof.
  intros He Hi. unfold bulk_callback. rewrite He, Hi. cbv zeta.
  destruct (validateBulkResponse wb items climb
              (set_stats (add_active_requests (-1) (stats st)) st)) as [st1 out].
  cbn [fst snd].
  destruct ((active_requests (stats st1) <? throttle st1) && flooding st1);
    split; reflexivity.
Qed.

Lemma bulk_callback_spec wb err resp climb st :
  let r := bulk_callback wb err resp climb st in
  (exists ps, buffer (fst r) = buffer st ++ flat_map (command_pair wb) ps)
  /\ written (stats (fst r)) = written (stats st)
  /\ active_requests (stats (fst r)) = active_requests (stats st) - 1
  /\ dispatched (snd r) = []
  /\ (forall s, In s (stats_events (snd r)) -> s = snapshot (fst r)).
Proof.
  destruct (truthy err) eqn:He; [|destruct (items_of resp) as [items|] eqn:Hi].
  - destruct (bulk_callback_failure wb err resp climb st) as (e & ->); [auto|].
    cbn. split; [exists []; now rewrite app_nil_r|].
    repeat split; try reflexivity. intros s [].
  - destruct (bulk_callback_success wb err resp items climb st He Hi)
      as (Hst & Hout).
    destruct (validateBulkResponse_spec wb items climb
                (set_stats (add_active_requests (-1) (stats st)) st))
      as (Hb & _ & _ & Hf & Hall).
    destruct Hf as (_ & _ & _ & _ & Hw & _ & Ha).
    destruct (errors_dispatch_nothing _ Hall) as (Hd & Hs & _).
    cbv zeta in *.
    set (v := validateBulkResponse wb items climb
                (set_stats (add_active_requests (-1) (stats st)) st)) in *.
    set (r := bulk_callback wb err resp climb st) in *.
    assert (Hsame : buffer (fst r) = buffer (fst v)
                    /\ stats (fst r) = stats (fst v)).
    { rewrite Hst.
      destruct ((active_requests (stats (fst v)) <? throttle (fst v))
                && flooding (fst v)); split; reflexivity. }
    destruct Hsame as (Hsb & Hss).
    split; [eexists; rewrite Hsb; exact Hb|].
    split; [rewrite Hss, Hw; reflexivity|].
    split; [rewrite Hss, Ha; cbn; lia|].
    rewrite Hout, !dispatched_app, Hd.
    unfold stats_events in *. rewrite !flat_map_app, Hs.
    destruct ((active_requests (stats (fst v)) <? throttle (fst v))
              && flooding (fst v)); cbn;
      (split; [reflexivity|intros s [<-|[]]; reflexivity]).
  - destruct (bulk_callback_failure wb err resp climb st) as (e & ->); [auto|].
    cbn. split; [exists []; now rewrite app_nil_r|].
    repeat split; try reflexivity. intros s [].
Qed.

(** ** Lemmas on flush, _write and the steps of a run *)

Lemma flush_cases force st :
  flush force st = (st, [])
  \/ exists st',
      flush force st
      = (st', [Client_bulk (firstn (Z.to_nat (opt_buffer (options st) * 2))
                                   (buffer st));
               Emit_stats (snapshot st')])
      /\ buffer st' = skipn (Z.to_nat (opt_buffer (options st) * 2)) (buffer st)
      /\ stats st'
         = add_active_requests 1
             (add_written
                (half (length (firstn (Z.to_nat (opt_buffer (options st) * 2))
                                      (buffer st))))
                (stats st)).
Proof.
  destruct (le_lt_dec 2 (length (buffer st))) as [Hlen|Hlen].
  - destruct force.
    + right. destruct (flush_ships true st Hlen (or_introl eq_refl))
        as (st' & H1 & H2 & H3 & _). eauto.
    + destruct (Z_lt_le_dec (Z.of_nat (length (buffer st)))
                            (2 * opt_buffer (options st))) as [Hb|Hb].
      * left. apply flush_noop. auto.
      * right. destruct (flush_ships false st Hlen (or_intror Hb))
          as (st' & H1 & H2 & H3 & _). eauto.
  - left. apply flush_noop. auto.
Qed.

Lemma even_prefix n (a : list value) :
  Nat.Even n -> even_length a ->
  even_length (firstn n a) /\ even_length (skipn n a).
Proof.
  unfold even_length. intros [k Hk] [m Hm].
  rewrite length_firstn, length_skipn. split.
  - destruct (Nat.min_spec n (length a)) as [[_ ->]|[_ ->]];
      [now exists k|now exists m].
  - exists (m - k)%nat. lia.
Qed.

Lemma even_to_nat b : Nat.Even (Z.to_nat (b * 2)).
Proof. exists (Z.to_nat b). lia. Qed.

Lemma flush_spec force st :
  let r := flush force st in
  written (stats st) <= written (stats (fst r))
  /\ (forall s, In s (stats_events (snd r)) -> s = snapshot (fst r))
  /\ (even_length (buffer st) ->
      even_length (buffer (fst r)) /\ Forall even_length (dispatched (snd r))).
Proof.
  destruct (flush_cases force st) as [->|(st' & -> & Hb & Hs)]; cbn [fst snd].
  - split; [lia|]. split; [intros s []|]. intros H. split; [exact H|constructor].
  - split.
    + rewrite Hs. cbn. pose proof (half_nonneg
        (length (firstn (Z.to_nat (opt_buffer (options st) * 2)) (buffer st)))).
      lia.
    + split; [intros s [<-|[]]; reflexivity|].
      intros H. rewrite Hb.
      destruct (even_prefix _ _ (even_to_nat (opt_buffer (options st))) H).
      split; [assumption|]. cbn. constructor; [assumption|constructor].
Qed.

Section StreamFacts.

Variable JSON_parse : string -> option value.

Lemma parseChunk_cases chunk record parsed :
  parseChunk JSON_parse chunk = Normal (record, parsed) ->
  (record = None /\ exists msg, parsed = [Emit_error_text msg])
  \/ (exists c, record = Some c /\ parsed = []).
Proof.
  unfold parseChunk.
  destruct (match chunk with Str s => JSON_parse s | _ => Some chunk end)
    as [c|]; [|intros [= <- <-]; left; eauto].
  destruct (typeof c); try (intros [= <- <-]; left; eauto).
  destruct (get c "_index") as [i|]; [cbn [bind]|discriminate].
  destruct (negb (truthy i)); [intros [= <- <-]; left; eauto|].
  destruct (get c "_type") as [t|]; [cbn [bind]|discriminate].
  destruct (negb (truthy t)); [intros [= <- <-]; left; eauto|].
  destruct (get c "_id") as [d|]; [cbn [bind]|discriminate].
  destruct (negb (truthy d)); intros [= <- <-]; [left|right]; eauto.
Qed.

(** [_write] either drops the chunk, counting one error and emitting one
    error text, or appends one Command Pair and tries an unforced flush;
    in both cases it then arms the timer and records [next]. *)
Lemma _write_cases chunk next st r :
  _write JSON_parse chunk next st = Normal r ->
  exists st1 parsed flushed,
    ((st1 = set_stats (add_error 1 (stats st)) st /\ flushed = []
      /\ exists msg, parsed = [Emit_error_text msg])
     \/ (exists a d,
           (st1, flushed)
           = flush false (set_buffer (buffer st ++ [a; d])
                                     (set_stats (add_ok 1 (stats st)) st))
           /\ parsed = []))
    /\ fst r = set_resumeFunction (Next next) (set_timeout true st1)
    /\ snd r = parsed ++ flushed
               ++ [Clear_timeout; Set_timeout (opt_timeout (options st1))]
               ++ (if flooding st1 then [] else [Call (Next next)]).
Proof.
  unfold _write.
  destruct (parseChunk JSON_parse chunk) as [[record parsed]|] eqn:Hp;
    [cbn [bind]|discriminate].
  destruct (parseChunk_cases _ _ _ Hp) as [(-> & msg & ->)|(c & -> & ->)].
  - cbn [bind]. intros [= <-]. do 3 eexists. split; [left; eauto|].
    split; reflexivity.
  - destruct (get c "_index") as [i|]; [cbn [bind]|discriminate].
    destruct (get c "_type") as [t|]; [cbn [bind]|discriminate].
    destruct (get c "_id") as [d|]; [cbn [bind]|discriminate].
    destruct (get c "data") as [data|]; [cbn [bind]|discriminate].
    destruct (flush false _) as [st1 flushed] eqn:Hf.
    intros [= <-]. exists st1, [], flushed.
    split; [right; do 2 eexists; split; [symmetry; exact Hf|reflexivity]|].
    split; reflexivity.
Qed.

Lemma _write_spec chunk next st r :
  _write JSON_parse chunk next st = Normal r ->
  written (stats st) <= written (stats (fst r))
  /\ (forall s, In s (stats_events (snd r)) -> s = snapshot (fst r))
  /\ (even_length (buffer st) ->
      even_length (buffer (fst r)) /\ Forall even_length (dispatched (snd r))).
Proof.
  intros H.
  destruct (_write_cases _ _ _ _ H)
    as (st1 & parsed & flushed & Hcase & -> & ->).
  assert (Hd : dispatched (snd (st1, parsed ++ flushed
                 ++ [Clear_timeout; Set_timeout (opt_timeout (options st1))]
                 ++ (if flooding st1 then [] else [Call (Next next)])))
               = dispatched parsed ++ dispatched flushed).
  { cbn [snd]. rewrite !dispatched_app.
    destruct (flooding st1); cbn; now rewrite app_nil_r. }
  assert (Hs : stats_events (snd (st1, parsed ++ flushed
                 ++ [Clear_timeout; Set_timeout (opt_timeout (options st1))]
                 ++ (if flooding st1 then [] else [Call (Next next)])))
               = stats_events parsed ++ stats_events flushed).
  { unfold stats_events. cbn [snd]. rewrite !flat_map_app.
    destruct (flooding st1); cbn; now rewrite app_nil_r. }
  cbn [snd] in Hd, Hs. rewrite Hd, Hs. clear Hd Hs.
  change (snapshot (set_resumeFunction (Next next) (set_timeout true st1)))
    with (snapshot st1).
  cbn [set_resumeFunction set_timeout buffer stats].
  destruct Hcase as [(-> & -> & msg & ->)|(a & d & Hf & ->)].
  - cbn. split; [lia|]. split; [intros s []|].
    intros He. split; [exact He|constructor].
  - pose proof (flush_spec false
                  (set_buffer (buffer st ++ [a; d])
                              (set_stats (add_ok 1 (stats st)) st))) as Hfs.
    rewrite <- Hf in Hfs. cbn [fst snd] in Hfs.
    destruct Hfs as (Hw & Hev & Heven).
    split; [exact Hw|]. split; [exact Hev|].
    intros [k Hk]. apply Heven. exists (S k).
    cbn [set_buffer buffer]. rewrite length_app. cbn [length]. lia.
Qed.

Lemma Forall_remove_nth {A : Type} (P : A -> Prop) k (l : list A) :
  Forall P l -> Forall P (remove_nth k l).
Proof.
  revert k. induction l as [|x l IH]; intros k H; [destruct k; constructor|].
  inversion H; subst. destruct k; cbn; [assumption|].
  constructor; auto.
Qed.

(** Every step of a run: the [written] counter does not decrease, every
    stats event it emits is the snapshot of the state it ends in, and even
    lengths of the buffer and of the pending batches are kept. *)
Lemma step_spec sys i sys' out :
  step JSON_parse sys i = Some (sys', out) ->
  written (stats (stream sys)) <= written (stats (stream sys'))
  /\ (forall s, In s (stats_events out) -> s = snapshot (stream sys'))
  /\ (even_length (buffer (stream sys)) /\ Forall even_length (in_flight sys) ->
      even_length (buffer (stream sys')) /\ Forall even_length (in_flight sys')).
Proof.
  destruct i as [chunk next| |force|k err resp climb]; cbn [step].
  - destruct (_write JSON_parse chunk next (stream sys)) as [r|] eqn:Hw;
      [|discriminate].
    intros [= <- <-]. cbn [after stream in_flight fst snd].
    destruct (_write_spec _ _ _ _ Hw) as (H1 & H2 & H3).
    split; [exact H1|]. split; [exact H2|].
    intros (Hb & Hp). destruct (H3 Hb).
    split; [assumption|]. apply Forall_app. auto.
  - destruct (timeout (stream sys)); [|discriminate].
    intros [= <- <-]. cbn [after stream in_flight fst snd].
    destruct (flush_spec true (set_timeout false (stream sys))) as (H1 & H2 & H3).
    split; [exact H1|]. split; [exact H2|].
    intros (Hb & Hp). destruct (H3 Hb).
    split; [assumption|]. apply Forall_app. auto.
  - intros [= <- <-]. cbn [after stream in_flight fst snd].
    destruct (flush_spec force (stream sys)) as (H1 & H2 & H3).
    split; [exact H1|]. split; [exact H2|].
    intros (Hb & Hp). destruct (H3 Hb).
    split; [assumption|]. apply Forall_app. auto.
  - destruct (nth_error (in_flight sys) k) as [wb|]; [|discriminate].
    intros [= <- <-]. cbn [after stream in_flight fst snd].
    destruct (bulk_callback_spec wb err resp climb (stream sys))
      as ((ps & Hb) & Hw & _ & Hd & Hs).
    split; [lia|]. split; [exact Hs|].
    intros ([m Hm] & Hp). rewrite Hb, Hd, app_nil_r. split.
    + exists (m + length ps)%nat.
      rewrite length_app, length_command_pairs. lia.
    + now apply Forall_remove_nth.
Qed.

End StreamFacts.

Lemma run_reachable JSON_parse o ins :
  forall sys sys' out,
    reachable JSON_parse o sys ->
    run JSON_parse sys ins = Some (sys', out) ->
    reachable JSON_parse o sys'.
Proof.
  induction ins as [|i ins IH]; intros sys sys' out Hr; cbn [run].
  - intros [= <- _]. exact Hr.
  - destruct (step JSON_parse sys i) as [[sys1 out1]|] eqn:Hs; [|discriminate].
    destruct (run JSON_parse sys1 ins) as [[sys2 out2]|] eqn:Hrun; [|discriminate].
    intros [= <- _]. eapply IH; [|exact Hrun].
    eapply reachable_step; eassumption.
Qed.

Lemma step_in_flight JSON_parse sys i sys' out :
  step JSON_parse sys i = Some (sys', out) ->
  exists pending, in_flight sys' = pending ++ dispatched out.
Proof.
  destruct i as [chunk next| |force|k err resp climb]; cbn [step].
  - destruct (_write JSON_parse chunk next (stream sys)); [|discriminate].
    intros [= <- <-]. eexists; reflexivity.
  - destruct (timeout (stream sys)); [|discriminate].
    intros [= <- <-]. eexists; reflexivity.
  - intros [= <- <-]. eexists; reflexivity.
  - destruct (nth_error (in_flight sys) k); [|discriminate].
    intros [= <- <-]. eexists; reflexivity.
Qed.

(** ** C4, C5, C7: where the code departs from the claim *)

(** C4 (the code departs from it): a failed call must add the pair count
    of its own batch to [error].  Here two calls are pending, of 2 pairs
    and of 1 pair; the first one fails with a transport error and [error]
    grows by 1, the pair count of the batch shipped last, because
    [writeBufferTotal] is a global that the later flush overwrote.  The
    rest of the claim holds on this run: one error event, [inserted],
    [retries] and the buffer unchanged. *)
Theorem C4_failed_batch_counts_latest_total :
  exists sys out sys' out',
    run no_json (start (Some (mkOptions 2 1000 20))) two_batches_pending
    = Some (sys, out)
    /\ map (fun wb => half (length wb)) (in_flight sys) = [2; 1]
    /\ step no_json sys (Complete 0 (Str "ECONNRESET") NoResponse false)
       = Some (sys', out')
    /\ error (stats (stream sys')) = error (stats (stream sys)) + 1
    /\ length (error_events out') = 1%nat
    /\ inserted (stats (stream sys')) = inserted (stats (stream sys))
    /\ retries (stats (stream sys')) = retries (stats (stream sys))
    /\ buffer (stream sys') = buffer (stream sys).
Proof.
  do 4 eexists.
  split; [vm_compute; reflexivity|].
  split; [reflexivity|].
  split; [vm_compute; reflexivity|].
  repeat split.
Qed.

(** C5 (the code departs from it): with throttle 20 and twenty calls
    pending the stream is flooding; all twenty calls then fail.  Each
    completion decrements [active_requests], down to 0, below the throttle,
    yet [flooding] is still set and no callback was invoked: the failure
    paths return before the flood control that the success path runs. *)
Theorem C5_failed_dispatches_leave_flooding :
  exists sys out sys' out',
    run no_json (start (Some (mkOptions 1 1000 20))) twenty_writes
    = Some (sys, out)
    /\ flooding (stream sys) = true
    /\ active_requests (stats (stream sys)) = 20
    /\ run no_json sys twenty_failures = Some (sys', out')
    /\ in_flight sys' = []
    /\ active_requests (stats (stream sys')) = 0
    /\ throttle (stream sys') = 20
    /\ flooding (stream sys') = true
    /\ resumeFunction (stream sys') = Next 19
    /\ resumed out' = [].
Proof.
  do 4 eexists.
  split; [vm_compute; reflexivity|].
  split; [reflexivity|]. split; [reflexivity|].
  split; [vm_compute; reflexivity|].
  repeat split.
Qed.

(** C7 (the code departs from it): [_write] counts a rejected record in the
    same [stats.error] that [emitStats] subtracts.  After one rejected
    record, one record shipped and its 201 reply, the stats event reports
    [queued] = 1 - 1 - 1 - 0 = -1. *)
Theorem C7_queued_negative_after_rejected_record :
  exists sys out,
    run no_json (start (Some (mkOptions 1 1000 20))) rejected_then_indexed
    = Some (sys, out)
    /\ map Snapshot.queued (stats_events out) = [0; -1]
    /\ written (stats (stream sys)) - inserted (stats (stream sys))
       - error (stats (stream sys)) - retries (stats (stream sys)) = -1.
Proof.
  do 2 eexists.
  split; [vm_compute; reflexivity|].
  split; reflexivity.
Qed.

(** On the success path the flood control does run: [flooding] is cleared
    and [resumeFunction] called once exactly when the stream was flooding
    and [active_requests] is now below the throttle. *)
Lemma bulk_callback_success_resumes wb err resp items climb st :
  truthy err = false -> items_of resp = Some items ->
  let r := bulk_callback wb err resp climb st in
  active_requests (stats (fst r)) = active_requests (stats st) - 1
  /\ (if (active_requests (stats (fst r)) <? throttle (fst r)) && flooding st
      then flooding (fst r) = false /\ resumed (snd r) = [resumeFunction st]
      else flooding (fst r) = flooding st /\ resumed (snd r) = []).
Proof.
  intros He Hi.
  destruct (bulk_callback_success wb err resp items climb st He Hi)
    as (Hst & Hout).
  destruct (validateBulkResponse_spec wb items climb
              (set_stats (add_active_requests (-1) (stats st)) st))
    as (_ & _ & _ & Hf & Hall).
  destruct Hf as (Hfl & _ & Hrf & _ & _ & _ & Ha).
  destruct (errors_dispatch_nothing _ Hall) as (_ & _ & Hres).
  cbv zeta in *.
  set (v := validateBulkResponse wb items climb
              (set_stats (add_active_requests (-1) (stats st)) st)) in *.
  set (r := bulk_callback wb err resp climb st) in *.
  cbn [set_stats flooding resumeFunction stats add_active_requests
       active_requests] in Hfl, Hrf, Ha.
  assert (Hsame : stats (fst r) = stats (fst v) /\ throttle (fst r) = throttle (fst v)).
  { rewrite Hst.
    destruct ((active_requests (stats (fst v)) <? throttle (fst v))
              && flooding (fst v)); split; reflexivity. }
  destruct Hsame as (Hss & Hth).
  rewrite Hss, Hth, Hout, <- Hfl, <- Hrf. split; [lia|].
  unfold resumed in *. rewrite !flat_map_app, Hres. rewrite Hst.
  destruct ((active_requests (stats (fst v)) <? throttle (fst v))
            && flooding (fst v)); cbn; split; reflexivity.
Qed.

(** ** C8: validation at intake *)

(** C8: a submitted record (an object, or a string that decodes to one)
    whose first missing field among index, type and id, in that order, is
    [f], is not appended to the buffer, is not shipped, and makes [_write]
    emit exactly one error event, the message of [f]; the three messages
    differ from one another. *)
Theorem C8_missing_field_rejected (JSON_parse : string -> option value)
  (chunk : value) (fields : list (string * value)) (next : nat) (st : State)
  (f : field) :
  chunk = Obj fields
  \/ (exists s, chunk = Str s /\ JSON_parse s = Some (Obj fields)) ->
  first_missing fields = Some f ->
  exists st' out,
    _write JSON_parse chunk next st = Normal (st', out)
    /\ buffer st' = buffer st
    /\ dispatched out = []
    /\ error_events out = [Emit_error_text (message_of f)]
    /\ (forall g, message_of g = message_of f -> g = f).
Proof.
  intros Hchunk Hf.
  assert (Hp : parseChunk JSON_parse chunk
               = Normal (None, [Emit_error_text (message_of f)])).
  { unfold parseChunk.
    replace (match chunk with Str s => JSON_parse s | _ => Some chunk end)
      with (Some (Obj fields))
      by (destruct Hchunk as [->|(s & -> & ->)]; reflexivity).
    cbn [typeof get bind]. unfold first_missing in Hf.
    destruct (negb (truthy (lookup "_index" fields)));
      [injection Hf as <-; reflexivity|].
    destruct (negb (truthy (lookup "_type" fields)));
      [injection Hf as <-; reflexivity|].
    destruct (negb (truthy (lookup "_id" fields)));
      [injection Hf as <-; reflexivity|discriminate]. }
  unfold _write. rewrite Hp. cbn [bind].
  do 2 eexists. split; [reflexivity|].
  cbn [set_resumeFunction set_timeout set_stats buffer flooding options].
  split; [reflexivity|].
  split; [destruct (flooding st); reflexivity|].
  split; [destruct (flooding st); reflexivity|].
  intros g. destruct g, f; cbn; intros H; (reflexivity || discriminate H).
Qed.

Lemma C8_missing_field_rejected_witness :
  exists st' out,
    _write no_json record_without_index 0 (BufferedBulkStream None)
    = Normal (st', out)
    /\ buffer st' = buffer (BufferedBulkStream None)
    /\ dispatched out = []
    /\ error_events out = [Emit_error_text (message_of F_index)]
    /\ (forall g, message_of g = message_of F_index -> g = F_index).
Proof.
  apply (C8_missing_field_rejected no_json record_without_index
           [("_type"%string, Str "poi"); ("_id"%string, Num 7);
            ("data"%string, doc 7)]
           0%nat (BufferedBulkStream None) F_index).
  - left. reflexivity.
  - reflexivity.
Defined.

(** ** C9: the written field of a stats event *)

(** C9, as the code has it: every stats event a step emits reports as
    [written] the internal [written] counter minus the [retries] counter,
    both as they are when the step ends; the internal counter itself never
    decreases. *)
Theorem C9_written_field_is_net_of_retries (JSON_parse : string -> option value)
  (sys : System) (i : input) (sys' : System) (out : list effect) :
  step JSON_parse sys i = Some (sys', out) ->
  (forall s, In s (stats_events out) ->
             Snapshot.written s
             = written (stats (stream sys')) - retries (stats (stream sys')))
  /\ written (stats (stream sys)) <= written (stats (stream sys')).
Proof.
  intros H. destruct (step_spec JSON_parse sys i sys' out H) as (Hw & Hs & _).
  split; [|exact Hw].
  intros s Hin. rewrite (Hs s Hin). reflexivity.
Qed.

Lemma C9_written_field_is_net_of_retries_witness :
  exists sys' out,
    step no_json after_retries Timer = Some (sys', out)
    /\ (forall s, In s (stats_events out) ->
                  Snapshot.written s
                  = written (stats (stream sys')) - retries (stats (stream sys')))
    /\ written (stats (stream after_retries)) <= written (stats (stream sys')).
Proof.
  do 2 eexists. split; [vm_compute; reflexivity|].
  apply (C9_written_field_is_net_of_retries no_json after_retries Timer).
  vm_compute. reflexivity.
Defined.

(** C9 as stated fails: one record is shipped and the backend answers 503.
    The two stats events report [written] 1 and then 0, while the internal
    counter is 1: the field is not the counter, and it decreases. *)
Lemma C9_written_field_decreases :
  exists sys out,
    run no_json (start (Some (mkOptions 1 1000 20))) shipped_then_503
    = Some (sys, out)
    /\ map Snapshot.written (stats_events out) = [1; 0]
    /\ written (stats (stream sys)) = 1.
Proof.
  do 2 eexists. split; [vm_compute; reflexivity|].
  split; reflexivity.
Qed.

(** ** Further lemmas on classification: counters and events *)

Lemma select_if_push p codes k i :
  length (select_if p (codes_push codes k i))
  = (length (select_if p codes) + (if p k then 1 else 0))%nat.
Proof.
  unfold select_if.
  induction codes as [|[k' l] rest IH]; cbn [codes_push flat_map fst snd].
  - destruct (p k); cbn; reflexivity.
  - destruct (k =? k') eqn:Hk; cbn [flat_map fst snd].
    + apply Z.eqb_eq in Hk; subst k'.
      destruct (p k); rewrite ?length_app; cbn; lia.
    + rewrite !length_app, IH. lia.
Qed.

Lemma select_if_perm p es es' :
  Permutation es es' -> length (select_if p es) = length (select_if p es').
Proof.
  unfold select_if.
  induction 1 as [|e l l' Hp IH|e e' l|l l' l'' Hp IH Hp' IH'];
    cbn [flat_map]; rewrite ?length_app; lia.
Qed.

Lemma reduce_items_count p items :
  forall i codes hf,
    length (select_if p (fst (reduce_items items i (codes, hf))))
    = (length (select_if p codes) + count_if p items)%nat.
Proof.
  unfold count_if.
  induction items as [|item rest IH]; intros i codes hf;
    cbn [reduce_items fst snd filter].
  - cbn. lia.
  - rewrite IH, select_if_push.
    destruct (p (status item)); cbn [length]; lia.
Qed.

(** Under the codes that satisfy [p] the loop handles as many positions as
    the reply has items with such a status. *)
Lemma select_if_reduce p items :
  length (select_if p (for_in (fst (reduce_items items 0 ([], false)))))
  = count_if p items.
Proof.
  rewrite (select_if_perm p _ _ (for_in_perm _)).
  rewrite reduce_items_count. reflexivity.
Qed.

Lemma classify_code_counts wb items st out e :
  let r := classify_code wb items (st, out) e in
  inserted (stats (fst r))
  = inserted (stats st) + Z.of_nat (length (select_if inserted_code [e]))
  /\ error (stats (fst r))
     = error (stats st) + Z.of_nat (length (select_if rejected_code [e]))
  /\ snd r = out ++ events_of wb items e.
Proof.
  destruct e as [code ps].
  unfold classify_code, select_if, events_of, item_error, inserted_code,
    rejected_code.
  cbn [flat_map fst snd].
  destruct (code =? 200) eqn:H200;
    [|destruct (code =? 201) eqn:H201;
      [|destruct (code =? 503) eqn:H503;
        [|destruct (code =? 400) eqn:H400]]];
    cbn [orb negb andb fst snd];
    try rewrite retry_fold;
    unfold set_stats, set_buffer, add_inserted, add_error, add_retries;
    cbn [buffer flooding options stats timeout resumeFunction writeBufferTotal
         written inserted ok error active_requests retries length];
    rewrite ?app_nil_r, ?Z.add_0_r; repeat split; reflexivity.
Qed.

Lemma classify_loop_counts wb items es :
  forall st out,
    let r := fold_left (classify_code wb items) es (st, out) in
    inserted (stats (fst r))
    = inserted (stats st) + Z.of_nat (length (select_if inserted_code es))
    /\ error (stats (fst r))
       = error (stats st) + Z.of_nat (length (select_if rejected_code es))
    /\ snd r = out ++ flat_map (events_of wb items) es.
Proof.
  induction es as [|e es IH]; intros st out; cbn [fold_left].
  - cbn. rewrite !Z.add_0_r, app_nil_r. auto.
  - destruct (classify_code_counts wb items st out e) as (Hi & He & Ho).
    destruct (classify_code wb items (st, out) e) as [st1 out1].
    cbn [fst snd] in *. subst out1.
    destruct (IH st1 (out ++ events_of wb items e)) as (Hi' & He' & Ho').
    cbv zeta. rewrite Hi', He', Ho', Hi, He.
    unfold select_if in *. cbn [flat_map].
    rewrite ?length_app, <- ?app_assoc. cbn [length].
    repeat split; lia.
Qed.

(** What classification does to [inserted] and [error], and what it
    emits. *)
Lemma validateBulkResponse_counts wb items climb st :
  let r := validateBulkResponse wb items climb st in
  inserted (stats (fst r))
  = inserted (stats st) + Z.of_nat (count_if inserted_code items)
  /\ error (stats (fst r))
     = error (stats st) + Z.of_nat (count_if rejected_code items)
  /\ snd r = flat_map (events_of wb items)
               (for_in (fst (reduce_items items 0 ([], false)))).
Proof.
  unfold validateBulkResponse.
  pose proof (select_if_reduce inserted_code items) as Hi.
  pose proof (select_if_reduce rejected_code items) as He.
  destruct (reduce_items items 0 ([], false)) as [codes hf].
  cbn [fst] in *.
  destruct (classify_loop_counts wb items (for_in codes) (batch hf climb st) [])
    as (Hi' & He' & Ho').
  cbv zeta. rewrite Hi', He', Ho', Hi, He. cbn. auto.
Qed.

Lemma positions_length c items :
  forall i, length (positions_from c i items) = count_if (fun k => k =? c) items.
Proof.
  unfold count_if.
  induction items as [|item rest IH]; intros i; cbn [positions_from filter];
    [reflexivity|].
  destruct (status item =? c); cbn [length]; rewrite IH; reflexivity.
Qed.

Lemma count_if_split items :
  (count_if inserted_code items + count_if rejected_code items
   + count_if (fun k => (k =? 503)%Z) items = length items)%nat.
Proof.
  unfold count_if, inserted_code, rejected_code.
  induction items as [|item rest IH]; cbn [filter length]; [reflexivity|].
  destruct (status item =? 200) eqn:H200.
  - apply Z.eqb_eq in H200. rewrite H200. cbn. lia.
  - destruct (status item =? 201) eqn:H201.
    + apply Z.eqb_eq in H201. rewrite H201. cbn. lia.
    + destruct (status item =? 503); cbn [orb negb andb length]; lia.
Qed.

Lemma events_of_length wb items es :
  length (flat_map (events_of wb items) es) = length (select_if rejected_code es).
Proof.
  unfold select_if, events_of.
  induction es as [|e es IH]; cbn [flat_map]; [reflexivity|].
  rewrite !length_app, IH.
  destruct (rejected_code (fst e)); [rewrite length_map|]; reflexivity.
Qed.

Lemma in_entry_of k l codes :
  NoDup (map fst codes) -> In (k, l) codes -> entry_of k codes = l.
Proof.
  induction codes as [|[k' l'] rest IH]; cbn [map fst In entry_of];
    intros Hnd Hin; [contradiction|].
  inversion Hnd as [|? ? Hnot Hnd']; subst.
  destruct Hin as [[= -> ->]|Hin].
  - now rewrite Z.eqb_refl.
  - destruct (k =? k') eqn:Hk; [|now apply IH].
    apply Z.eqb_eq in Hk; subst k'.
    exfalso. apply Hnot. apply (in_map fst) in Hin. exact Hin.
Qed.

Lemma entry_of_in k i codes :
  In i (entry_of k codes) -> In (k, entry_of k codes) codes.
Proof.
  induction codes as [|[k' l'] rest IH]; cbn [entry_of In]; [intros []|].
  destruct (k =? k') eqn:Hk.
  - apply Z.eqb_eq in Hk; subst k'. now left.
  - intros H. right. now apply IH.
Qed.

(** The properties the loop walks hold exactly the positions of the
    reply, each under the status of its item. *)
Lemma for_in_entries items k i :
  (exists l, In (k, l) (for_in (fst (reduce_items items 0 ([], false))))
             /\ In i l)
  <-> exists item, nth_error items i = Some item /\ status item = k.
Proof.
  destruct (reduce_items_spec items 0 [] false) as (Hnd & Hent & _);
    [constructor|].
  set (codes := fst (reduce_items items 0 ([], false))) in *.
  assert (Hpos : In i (entry_of k codes)
                 <-> exists item, nth_error items i = Some item /\ status item = k).
  { rewrite Hent. cbn [entry_of app]. rewrite positions_from_in.
    rewrite Nat.sub_0_r. split; [tauto|]. intros H. split; [lia|exact H]. }
  rewrite <- Hpos. split.
  - intros (l & Hin & Hi).
    apply (Permutation_in _ (for_in_perm codes)) in Hin.
    now rewrite (in_entry_of k l codes Hnd Hin).
  - intros Hi. exists (entry_of k codes). split; [|exact Hi].
    apply (Permutation_in _ (Permutation_sym (for_in_perm codes))).
    now apply (entry_of_in k i).
Qed.

Lemma nth_error_item i items item :
  nth_error items i = Some item -> nth i items (mkItem 0 Undefined) = item.
Proof. intros H. now apply nth_error_nth. Qed.

Lemma positions_none c items :
  (forall item, In item items -> status item <> c) ->
  forall i, positions_from c i items = [].
Proof.
  induction items as [|item rest IH]; intros H i; cbn [positions_from];
    [reflexivity|].
  destruct (status item =? c) eqn:Hc.
  - apply Z.eqb_eq in Hc. exfalso. apply (H item); [now left|exact Hc].
  - apply IH. intros it Hin. apply H. now right.
Qed.

(** ** X1 - X3: what classification counts and emits *)

(** X1: classification counts every item of the reply exactly once: an
    item with status 200 or 201 in [inserted], one with status 503 in
    [retries], any other one in [error]; so the three counters together
    grow by the number of items of the reply (whatever the size of the
    batch), and [written] is not touched. *)
Theorem X1_every_item_counted_once (wb : list value) (items : list Item)
  (climb : bool) (st : State) :
  let st' := fst (validateBulkResponse wb items climb st) in
  inserted (stats st')
  = inserted (stats st) + Z.of_nat (count_if inserted_code items)
  /\ error (stats st')
     = error (stats st) + Z.of_nat (count_if rejected_code items)
  /\ retries (stats st')
     = retries (stats st) + Z.of_nat (count_if (fun k => k =? 503) items)
  /\ inserted (stats st') + error (stats st') + retries (stats st')
     = inserted (stats st) + error (stats st) + retries (stats st)
       + Z.of_nat (length items)
  /\ written (stats st') = written (stats st).
Proof.
  intros st'.
  destruct (validateBulkResponse_counts wb items climb st) as (Hi & He & _).
  destruct (validateBulkResponse_spec wb items climb st)
    as (_ & Hr & _ & Hf & _).
  destruct Hf as (_ & _ & _ & _ & Hw & _).
  fold st' in Hi, He, Hr, Hw.
  unfold positions in Hr. rewrite positions_length in Hr.
  pose proof (count_if_split items) as Hsum.
  repeat split; try assumption. lia.
Qed.

(** X2: classification emits exactly one error event per item whose status
    is neither 200, 201 nor 503, and nothing else: the event carries the
    backend's error detail (for 400) or the text 'unknown response code'
    (for any other status), the document at slot 2i+1 of the batch, and
    the raw item. *)
Theorem X2_one_error_per_rejected_item (wb : list value) (items : list Item)
  (climb : bool) (st : State) :
  let out := snd (validateBulkResponse wb items climb st) in
  length out = count_if rejected_code items
  /\ forall e,
       In e out
       <-> exists i item,
             nth_error items i = Some item
             /\ rejected_code (status item) = true
             /\ e = Emit_error
                      (mkIndexError
                         (if status item =? 400 then detail item
                          else Str "unknown response code")
                         (nth (i * 2 + 1) wb Undefined)
                         (RawItem item)).
Proof.
  intros out.
  destruct (validateBulkResponse_counts wb items climb st) as (_ & _ & Ho).
  fold out in Ho. rewrite Ho. split.
  - rewrite events_of_length. apply select_if_reduce.
  - intros e. rewrite in_flat_map. split.
    + intros ([k l] & Hin & He). unfold events_of in He. cbn [fst snd] in He.
      destruct (rejected_code k) eqn:Hrej; [|contradiction].
      apply in_map_iff in He. destruct He as (i & <- & Hi).
      destruct (proj1 (for_in_entries items k i)) as (item & Hn & Hs);
        [eauto|].
      exists i, item. subst k. split; [exact Hn|]. split; [exact Hrej|].
      unfold item_error, error_400, error_unknown, slot.
      rewrite (nth_error_item _ _ _ Hn).
      destruct (status item =? 400); reflexivity.
    + intros (i & item & Hn & Hrej & ->).
      destruct (proj2 (for_in_entries items (status item) i)) as (l & Hin & Hi);
        [eauto|].
      exists (status item, l). split; [exact Hin|].
      unfold events_of. cbn [fst snd]. rewrite Hrej.
      apply in_map_iff. exists i. split; [|exact Hi].
      unfold item_error, error_400, error_unknown, slot.
      rewrite (nth_error_item _ _ _ Hn).
      destruct (status item =? 400); reflexivity.
Qed.

(** X3: a reply without any 503 item re-queues nothing and never lowers
    the throttle: the buffer and [retries] are unchanged and the throttle
    is raised by one when the random draw exceeds 0.9, else kept. *)
Theorem X3_clean_reply_keeps_buffer (wb : list value) (items : list Item)
  (climb : bool) (st : State) :
  (forall item, In item items -> status item <> 503) ->
  let st' := fst (validateBulkResponse wb items climb st) in
  buffer st' = buffer st
  /\ retries (stats st') = retries (stats st)
  /\ throttle st' = (if climb then throttle st + 1 else throttle st).
Proof.
  intros H st'.
  destruct (validateBulkResponse_spec wb items climb st)
    as (Hb & Hr & Ho & _ & _).
  fold st' in Hb, Hr, Ho.
  unfold positions in *. rewrite (positions_none 503 items H 0%nat) in *.
  cbn [flat_map length Nat.eqb negb Z.of_nat] in *.
  rewrite app_nil_r in Hb. rewrite Z.add_0_r in Hr.
  split; [exact Hb|]. split; [exact Hr|].
  unfold throttle. rewrite Ho. reflexivity.
Qed.

Lemma X3_clean_reply_keeps_buffer_witness :
  let st := BufferedBulkStream None in
  let st' := fst (validateBulkResponse [doc 1; doc 2]
                    [mkItem 201 Undefined; mkItem 400 (Str "bad")] true st) in
  buffer st' = buffer st
  /\ retries (stats st') = retries (stats st)
  /\ throttle st' = throttle st + 1.
Proof.
  apply (X3_clean_reply_keeps_buffer [doc 1; doc 2]
           [mkItem 201 Undefined; mkItem 400 (Str "bad")] true
           (BufferedBulkStream None)).
  intros item [<-|[<-|[]]]; discriminate.
Defined.

(** ** Further lemmas on flush *)

(** [flush] in full: either nothing happens, or one batch is shipped. *)
Lemma flush_full force st :
  flush force st = (st, [])
  \/ exists st',
      let n := Z.to_nat (opt_buffer (options st) * 2) in
      let writeBuffer := firstn n (buffer st) in
      flush force st = (st', [Client_bulk writeBuffer; Emit_stats (snapshot st')])
      /\ (2 <= length (buffer st))%nat
      /\ buffer st' = skipn n (buffer st)
      /\ stats st'
         = add_active_requests 1 (add_written (half (length writeBuffer)) (stats st))
      /\ options st' = options st
      /\ timeout st' = timeout st
      /\ resumeFunction st' = resumeFunction st
      /\ writeBufferTotal st' = half (length writeBuffer)
      /\ flooding st'
         = (flooding st || (throttle st <=? active_requests (stats st) + 1)).
Proof.
  destruct (le_lt_dec 2 (length (buffer st))) as [Hlen|Hlen].
  - destruct force.
    + right. destruct (flush_ships true st Hlen (or_introl eq_refl))
        as (st' & H). exists st'. cbv zeta in *. tauto.
    + destruct (Z_lt_le_dec (Z.of_nat (length (buffer st)))
                            (2 * opt_buffer (options st))) as [Hb|Hb].
      * left. apply flush_noop. auto.
      * right. destruct (flush_ships false st Hlen (or_intror Hb))
          as (st' & H). exists st'. cbv zeta in *. tauto.
  - left. apply flush_noop. auto.
Qed.

(** ** X4, X5: what a flush ships *)

(** X4: [flush] ships at most one batch, and the batch is a prefix of the
    buffer: the shipped elements followed by what stays buffered are the
    buffer as it was, in order; the batch has at most [options.buffer]
    pairs; [active_requests] grows by the number of batches shipped,
    [written] by the pairs shipped, no other counter changes, and
    [flooding], once set, is not cleared by a flush. *)
Theorem X4_flush_ships_a_prefix (force : bool) (st : State) :
  let r := flush force st in
  let batches := dispatched (snd r) in
  concat batches ++ buffer (fst r) = buffer st
  /\ (length batches <= 1)%nat
  /\ Forall (fun wb => Z.of_nat (length wb)
                       <= 2 * Z.max 0 (opt_buffer (options st))) batches
  /\ active_requests (stats (fst r))
     = active_requests (stats st) + Z.of_nat (length batches)
  /\ written (stats (fst r)) = written (stats st) + pairs_of batches
  /\ inserted (stats (fst r)) = inserted (stats st)
  /\ error (stats (fst r)) = error (stats st)
  /\ retries (stats (fst r)) = retries (stats st)
  /\ ok (stats (fst r)) = ok (stats st)
  /\ options (fst r) = options st
  /\ (flooding st = true -> flooding (fst r) = true).
Proof.
  destruct (flush_full force st)
    as [->|(st' & -> & _ & Hb & Hs & Ho & _ & _ & _ & Hfl)];
    cbn [fst snd dispatched concat length pairs_of fold_right Z.of_nat].
  - rewrite !Z.add_0_r. repeat split; auto.
  - rewrite Hb, Hs, Ho, Hfl, app_nil_r, firstn_skipn.
    cbn [add_active_requests add_written written inserted ok error
         active_requests retries].
    rewrite Z.add_0_r.
    repeat split; auto.
    + constructor; [|constructor]. rewrite length_firstn. lia.
    + intros ->. reflexivity.
Qed.

(** X5: with [options.buffer] zero or negative a flush never drains
    anything: whenever the buffer holds at least 2 elements, forced or
    not, it ships an empty batch, takes one more request slot and leaves
    the buffer and [written] as they were. *)
Theorem X5_flush_with_no_batch_size (force : bool) (st : State) :
  opt_buffer (options st) <= 0 ->
  (2 <= length (buffer st))%nat ->
  let r := flush force st in
  dispatched (snd r) = [[]]
  /\ buffer (fst r) = buffer st
  /\ written (stats (fst r)) = written (stats st)
  /\ active_requests (stats (fst r)) = active_requests (stats st) + 1.
Proof.
  intros Hb Hlen.
  assert (Hgo : force = true
                \/ 2 * opt_buffer (options st) <= Z.of_nat (length (buffer st)))
    by (right; lia).
  destruct (flush_ships force st Hlen Hgo) as (st' & Hf & Hbuf & Hs & _).
  cbv zeta in *. rewrite Hf. cbn [fst snd dispatched].
  replace (Z.to_nat (opt_buffer (options st) * 2)) with 0%nat in * by lia.
  cbn [firstn skipn length] in *. rewrite Hbuf, Hs.
  repeat split. cbn. unfold half. cbn. lia.
Qed.

Lemma X5_flush_with_no_batch_size_witness :
  let st := set_buffer [action (Str "places") (Str "poi") (Num 1); doc 1]
              (BufferedBulkStream (Some (mkOptions 0 1000 20))) in
  let r := flush true st in
  dispatched (snd r) = [[]]
  /\ buffer (fst r) = buffer st
  /\ written (stats (fst r)) = written (stats st)
  /\ active_requests (stats (fst r)) = active_requests (stats st) + 1.
Proof.
  apply (X5_flush_with_no_batch_size true
           (set_buffer [action (Str "places") (Str "poi") (Num 1); doc 1]
              (BufferedBulkStream (Some (mkOptions 0 1000 20))))).
  - vm_compute. discriminate.
  - cbn. lia.
Defined.

(** ** Further lemmas on intake *)

Section IntakeFacts.

Variable JSON_parse : string -> option value.

Lemma parseChunk_decode chunk :
  parseChunk JSON_parse chunk
  = match decode JSON_parse chunk with
    | None => Normal (None, [Emit_error_text "failed to parse JSON chunk"])
    | Some c =>
        match typeof c with
        | T_object =>
            match c with
            | Obj fields =>
                match first_missing fields with
                | Some f => Normal (None, [Emit_error_text (message_of f)])
                | None => Normal (Some c, [])
                end
            | Arr _ => Normal (None, [Emit_error_text "invalid index specified"])
            | _ => Throw
            end
        | _ => Normal (None, [Emit_error_text "invalid bulk API message"])
        end
    end.
Proof.
  unfold parseChunk, decode.
  destruct (match chunk with Str s => JSON_parse s | _ => Some chunk end)
    as [c|]; [|reflexivity].
  destruct c as [| |b|n|s|fields|elems]; cbn [typeof get bind];
    try reflexivity.
  unfold first_missing.
  destruct (negb (truthy (lookup "_index" fields))); [reflexivity|].
  destruct (negb (truthy (lookup "_type" fields))); [reflexivity|].
  destruct (negb (truthy (lookup "_id" fields))); reflexivity.
Qed.

(** An accepted object: one pair is pushed, then an unforced flush runs. *)
Lemma _write_accepts chunk fields next st :
  decode JSON_parse chunk = Some (Obj fields) ->
  first_missing fields = None ->
  let st0 := set_buffer (buffer st ++ pair_for fields)
               (set_stats (add_ok 1 (stats st)) st) in
  let st1 := fst (flush false st0) in
  _write JSON_parse chunk next st
  = Normal (set_resumeFunction (Next next) (set_timeout true st1),
            snd (flush false st0) ++ write_tail next st1).
Proof.
  intros Hd Hf. unfold _write. rewrite parseChunk_decode, Hd.
  cbn [typeof]. rewrite Hf. cbn [bind get].
  unfold pair_for, write_tail.
  destruct (flush false _) as [st1 flushed]. reflexivity.
Qed.

(** A dropped chunk: one error text, one more in [stats.error]. *)
Lemma _write_drops chunk msg next st :
  parseChunk JSON_parse chunk = Normal (None, [Emit_error_text msg]) ->
  _write JSON_parse chunk next st
  = Normal (set_resumeFunction (Next next)
              (set_timeout true (set_stats (add_error 1 (stats st)) st)),
            Emit_error_text msg :: write_tail next st).
Proof.
  intros Hp. unfold _write. rewrite Hp. reflexivity.
Qed.

End IntakeFacts.

(** ** X6 - X10: intake *)

(** X6: a record with index, type and id, written while the buffer stays
    below [options.buffer] pairs, is buffered and not shipped: the buffer
    grows at its tail by one pair, the descriptor
    [{ index: { _index, _type, _id } }] built from the record's own values
    followed by the record's [data]; [ok] grows by one, no other counter
    changes, and nothing is emitted. *)
Theorem X6_accepted_record_is_buffered (JSON_parse : string -> option value)
  (chunk : value) (fields : list (string * value)) (next : nat) (st : State) :
  decode JSON_parse chunk = Some (Obj fields) ->
  first_missing fields = None ->
  Z.of_nat (length (buffer st)) + 2 < 2 * opt_buffer (options st) ->
  exists st',
    _write JSON_parse chunk next st = Normal (st', write_tail next st)
    /\ buffer st'
       = buffer st
         ++ [Obj [("index"%string,
                   Obj [("_index"%string, lookup "_index" fields);
                        ("_type"%string, lookup "_type" fields);
                        ("_id"%string, lookup "_id" fields)])];
             lookup "data" fields]
    /\ stats st' = add_ok 1 (stats st)
    /\ flooding st' = flooding st.
Proof.
  intros Hd Hf Hlen.
  rewrite (_write_accepts JSON_parse chunk fields next st Hd Hf). cbv zeta.
  rewrite flush_noop.
  - eexists. split; [reflexivity|]. repeat split.
  - right. split; [reflexivity|].
    cbn [set_buffer set_stats buffer options]. unfold pair_for.
    rewrite length_app. cbn [length]. lia.
Qed.

Lemma X6_accepted_record_is_buffered_witness :
  exists st',
    _write no_json (record 1) 0 (BufferedBulkStream None)
    = Normal (st', write_tail 0 (BufferedBulkStream None))
    /\ buffer st' = [action (Str "places") (Str "poi") (Num 1); doc 1]
    /\ stats st' = add_ok 1 zero_stats
    /\ flooding st' = false.
Proof.
  apply (X6_accepted_record_is_buffered no_json (record 1)
           [("_index"%string, Str "places"); ("_type"%string, Str "poi");
            ("_id"%string, Num 1); ("data"%string, doc 1)]
           0%nat (BufferedBulkStream None)).
  - reflexivity.
  - reflexivity.
  - vm_compute. reflexivity.
Defined.

(** X7: the write that brings the buffer to [options.buffer] pairs or
    more ships at once: exactly one batch, the first [options.buffer]
    pairs of the buffer with the new pair at its tail (so pairs re-queued
    earlier go first and the new record may stay behind); [written] grows
    by the pairs shipped, [active_requests] and [ok] by one. *)
Theorem X7_write_at_batch_size_ships (JSON_parse : string -> option value)
  (chunk : value) (fields : list (string * value)) (next : nat) (st : State) :
  decode JSON_parse chunk = Some (Obj fields) ->
  first_missing fields = None ->
  2 * opt_buffer (options st) <= Z.of_nat (length (buffer st)) + 2 ->
  let n := Z.to_nat (opt_buffer (options st) * 2) in
  let filled := buffer st ++ pair_for fields in
  exists st' out,
    _write JSON_parse chunk next st = Normal (st', out)
    /\ dispatched out = [firstn n filled]
    /\ buffer st' = skipn n filled
    /\ written (stats st') = written (stats st) + half (length (firstn n filled))
    /\ active_requests (stats st') = active_requests (stats st) + 1
    /\ ok (stats st') = ok (stats st) + 1.
Proof.
  intros Hd Hf Hlen n filled.
  rewrite (_write_accepts JSON_parse chunk fields next st Hd Hf). cbv zeta.
  set (st0 := set_buffer (buffer st ++ pair_for fields)
                (set_stats (add_ok 1 (stats st)) st)).
  assert (H2 : (2 <= length (buffer st0))%nat).
  { unfold st0, pair_for. cbn [set_buffer buffer].
    rewrite length_app. cbn [length]. lia. }
  assert (Hgo : false = true
                \/ 2 * opt_buffer (options st0) <= Z.of_nat (length (buffer st0))).
  { right. unfold st0, pair_for. cbn [set_buffer set_stats buffer options].
    rewrite length_app. cbn [length]. lia. }
  destruct (flush_ships false st0 H2 Hgo) as (st1 & Hfl & Hb & Hs & _).
  cbv zeta in *. rewrite Hfl. cbn [fst snd].
  do 2 eexists. split; [reflexivity|].
  cbn [set_resumeFunction set_timeout buffer stats].
  rewrite Hb, Hs.
  split.
  - unfold write_tail. destruct (flooding st1); reflexivity.
  - repeat split.
Qed.

Lemma X7_write_at_batch_size_ships_witness :
  exists st' out,
    _write no_json (record 2) 1
      (set_buffer [action (Str "places") (Str "poi") (Num 1); doc 1]
         (BufferedBulkStream (Some (mkOptions 2 1000 20))))
    = Normal (st', out)
    /\ dispatched out
       = [[action (Str "places") (Str "poi") (Num 1); doc 1;
           action (Str "places") (Str "poi") (Num 2); doc 2]]
    /\ buffer st' = []
    /\ written (stats st') = 2
    /\ active_requests (stats st') = 1
    /\ ok (stats st') = 1.
Proof.
  apply (X7_write_at_batch_size_ships no_json (record 2)
           [("_index"%string, Str "places"); ("_type"%string, Str "poi");
            ("_id"%string, Num 2); ("data"%string, doc 2)]
           1%nat
           (set_buffer [action (Str "places") (Str "poi") (Num 1); doc 1]
              (BufferedBulkStream (Some (mkOptions 2 1000 20))))).
  - reflexivity.
  - reflexivity.
  - vm_compute. discriminate.
Defined.

(** X8: a chunk that is not a record is dropped with one error text and
    counted in [stats.error]: 'failed to parse JSON chunk' for a string
    that [JSON.parse] rejects, 'invalid bulk API message' for anything
    whose type is not 'object' (a number, a boolean, [undefined], or a
    string that decodes to one of these or to a string), and 'invalid
    index specified' for an array.  The buffer is untouched and nothing
    is shipped. *)
Theorem X8_non_record_is_dropped (JSON_parse : string -> option value)
  (chunk : value) (msg : string) (next : nat) (st : State) :
  (decode JSON_parse chunk = None /\ msg = "failed to parse JSON chunk"%string)
  \/ (exists v, decode JSON_parse chunk = Some v /\ typeof v <> T_object
                /\ msg = "invalid bulk API message"%string)
  \/ (exists elems, decode JSON_parse chunk = Some (Arr elems)
                    /\ msg = "invalid index specified"%string) ->
  exists st',
    _write JSON_parse chunk next st
    = Normal (st', Emit_error_text msg :: write_tail next st)
    /\ buffer st' = buffer st
    /\ stats st' = add_error 1 (stats st)
    /\ flooding st' = flooding st.
Proof.
  intros H.
  assert (Hp : parseChunk JSON_parse chunk = Normal (None, [Emit_error_text msg])).
  { rewrite parseChunk_decode.
    destruct H as [(-> & ->)|[(v & -> & Hv & ->)|(elems & -> & ->)]];
      [reflexivity| |reflexivity].
    destruct v; cbn [typeof] in *; try reflexivity; now contradiction Hv. }
  rewrite (_write_drops JSON_parse chunk msg next st Hp).
  eexists. split; [reflexivity|]. repeat split.
Qed.

Lemma X8_non_record_is_dropped_witness :
  exists st',
    _write no_json (Str "{ not json") 3 (BufferedBulkStream None)
    = Normal (st', Emit_error_text "failed to parse JSON chunk"
                     :: write_tail 3 (BufferedBulkStream None))
    /\ buffer st' = []
    /\ stats st' = add_error 1 zero_stats
    /\ flooding st' = false.
Proof.
  apply (X8_non_record_is_dropped no_json (Str "{ not json")
           "failed to parse JSON chunk" 3%nat (BufferedBulkStream None)).
  left. split; reflexivity.
Defined.

(** X9: [null] is the one chunk [_write] does not survive: [typeof null] is
    'object', so [parseChunk] reads [_index] of it and a TypeError is
    thrown, for [null] itself and for every string that [JSON.parse]
    decodes to [null]; the run stops there, no error event is emitted. *)
Theorem X9_null_chunk_throws (JSON_parse : string -> option value)
  (chunk : value) (next : nat) (sys : System) :
  decode JSON_parse chunk = Some Null ->
  _write JSON_parse chunk next (stream sys) = Throw
  /\ step JSON_parse sys (Write chunk next) = None.
Proof.
  intros Hd.
  assert (H : _write JSON_parse chunk next (stream sys) = Throw).
  { unfold _write. rewrite parseChunk_decode, Hd. reflexivity. }
  split; [exact H|]. cbn [step]. now rewrite H.
Qed.

Lemma X9_null_chunk_throws_witness :
  _write (fun _ => Some Null) (Str "null") 0 (stream (start None)) = Throw
  /\ step (fun _ => Some Null) (start None) (Write (Str "null") 0) = None.
Proof.
  apply (X9_null_chunk_throws (fun _ => Some Null) (Str "null") 0%nat
           (start None)).
  reflexivity.
Defined.

(** X10: every write that returns counts the chunk once, in [ok] or in
    [error]; re-arms the inactivity timer; records its [next] as the
    callback to resume with; and calls [next] itself exactly when the
    stream is not flooding once the write is done (so a write made while
    flooding is never acknowledged by [_write]).  It ships at most one
    batch and does not clear [flooding]. *)
Theorem X10_write_acknowledges_unless_flooding
  (JSON_parse : string -> option value) (chunk : value) (next : nat)
  (st st' : State) (out : list effect) :
  _write JSON_parse chunk next st = Normal (st', out) ->
  ok (stats st') + error (stats st') = ok (stats st) + error (stats st) + 1
  /\ timeout st' = true
  /\ resumeFunction st' = Next next
  /\ resumed out = (if flooding st' then [] else [Next next])
  /\ (flooding st = true -> flooding st' = true)
  /\ (length (dispatched out) <= 1)%nat
  /\ options st' = options st.
Proof.
  intros H.
  destruct (_write_cases JSON_parse chunk next st (st', out) H)
    as (st1 & parsed & flushed & Hcase & Hst & Hout).
  cbn [fst snd] in Hst, Hout. subst st' out.
  cbn [set_resumeFunction set_timeout stats timeout resumeFunction flooding
       options].
  assert (Hres : forall pre, resumed pre = [] ->
            resumed (pre ++ [Clear_timeout; Set_timeout (opt_timeout (options st1))]
                     ++ (if flooding st1 then [] else [Call (Next next)]))
            = (if flooding st1 then [] else [Next next])).
  { intros pre Hpre. unfold resumed in *. rewrite flat_map_app, Hpre.
    destruct (flooding st1); reflexivity. }
  assert (Hdis : forall pre,
            dispatched (pre ++ [Clear_timeout; Set_timeout (opt_timeout (options st1))]
                        ++ (if flooding st1 then [] else [Call (Next next)]))
            = dispatched pre).
  { intros pre. rewrite dispatched_app.
    destruct (flooding st1); cbn; apply app_nil_r. }
  rewrite app_assoc, Hdis.
  destruct Hcase as [(-> & -> & msg & ->)|(a & d & Hf & ->)].
  - rewrite Hres by reflexivity. cbn. repeat split; auto; lia.
  - cbn [app]. rewrite Hres.
    2:{ destruct (flush_full false (set_buffer (buffer st ++ [a; d])
                     (set_stats (add_ok 1 (stats st)) st)))
          as [He|(s' & He & _)]; rewrite He in Hf; injection Hf as _ ->;
          reflexivity. }
    destruct (flush_full false (set_buffer (buffer st ++ [a; d])
                 (set_stats (add_ok 1 (stats st)) st)))
      as [He|(s' & He & _ & _ & Hs & Ho & _ & _ & _ & Hfl)];
      rewrite He in Hf; injection Hf as -> ->.
    + cbn. repeat split; auto; lia.
    + rewrite Hs, Ho, Hfl. cbn. repeat split; auto; try lia.
      intros ->. reflexivity.
Qed.

Lemma X10_write_acknowledges_unless_flooding_witness :
  exists st' out,
    _write no_json (record 1) 5
      (BufferedBulkStream (Some (mkOptions 1 1000 1)))
    = Normal (st', out)
    /\ ok (stats st') + error (stats st') = 1
    /\ timeout st' = true
    /\ resumeFunction st' = Next 5
    /\ resumed out = (if flooding st' then [] else [Next 5])
    /\ flooding st' = true
    /\ resumed out = [].
Proof.
  do 2 eexists. split; [vm_compute; reflexivity|].
  destruct (X10_write_acknowledges_unless_flooding no_json (record 1) 5%nat
              (BufferedBulkStream (Some (mkOptions 1 1000 1)))
              _ _ eq_refl) as (H1 & H2 & H3 & H4 & _).
  repeat split; assumption || reflexivity.
Defined.

(** ** Further lemmas on the bulk callback *)

(** The callback in full: what it keeps, what it counts. *)
Lemma bulk_callback_full wb err resp climb st :
  let r := bulk_callback wb err resp climb st in
  opt_buffer (options (fst r)) = opt_buffer (options st)
  /\ opt_timeout (options (fst r)) = opt_timeout (options st)
  /\ Z.min 20 (throttle st) <= throttle (fst r)
  /\ timeout (fst r) = timeout st
  /\ resumeFunction (fst r) = resumeFunction st
  /\ writeBufferTotal (fst r) = writeBufferTotal st
  /\ written (stats (fst r)) = written (stats st)
  /\ ok (stats (fst r)) = ok (stats st)
  /\ active_requests (stats (fst r)) = active_requests (stats st) - 1
  /\ dispatched (snd r) = []
  /\ exists ps,
       buffer (fst r) = buffer st ++ flat_map (command_pair wb) ps
       /\ retries (stats (fst r)) = retries (stats st) + Z.of_nat (length ps)
       /\ inserted (stats st) <= inserted (stats (fst r))
       /\ ((ps = []
            /\ inserted (stats (fst r)) = inserted (stats st)
            /\ error (stats (fst r)) = error (stats st) + writeBufferTotal st
            /\ (truthy err = true \/ items_of resp = None))
           \/ (exists items,
                 truthy err = false /\ items_of resp = Some items
                 /\ error (stats st) <= error (stats (fst r))
                 /\ inserted (stats (fst r)) + error (stats (fst r))
                    + retries (stats (fst r))
                    = inserted (stats st) + error (stats st) + retries (stats st)
                      + Z.of_nat (length items))).
Proof.
  destruct (truthy err) eqn:He; [|destruct (items_of resp) as [items|] eqn:Hi].
  - destruct (bulk_callback_failure wb err resp climb st) as (e & ->); [auto|].
    unfold throttle. cbn. repeat split; try lia.
    exists []. rewrite app_nil_r. cbn. repeat split; try lia. left. auto.
  - destruct (bulk_callback_success wb err resp items climb st He Hi)
      as (Hst & Hout).
    set (st0 := set_stats (add_active_requests (-1) (stats st)) st) in *.
    destruct (validateBulkResponse_spec wb items climb st0)
      as (Hb & Hr & Ho & Hf & Hall).
    destruct (validateBulkResponse_counts wb items climb st0) as (Hins & Herr & _).
    destruct Hf as (_ & Ht & Hrf & Hwbt & Hw & Hok & Ha).
    destruct (errors_dispatch_nothing _ Hall) as (Hd & _ & _).
    cbv zeta in *.
    set (v := validateBulkResponse wb items climb st0) in *.
    set (r := bulk_callback wb err resp climb st) in *.
    assert (Hsame : buffer (fst r) = buffer (fst v)
                    /\ stats (fst r) = stats (fst v)
                    /\ options (fst r) = options (fst v)
                    /\ timeout (fst r) = timeout (fst v)
                    /\ resumeFunction (fst r) = resumeFunction (fst v)
                    /\ writeBufferTotal (fst r) = writeBufferTotal (fst v)).
    { rewrite Hst.
      destruct ((active_requests (stats (fst v)) <? throttle (fst v))
                && flooding (fst v)); repeat split. }
    destruct Hsame as (Hsb & Hss & Hso & Hst' & Hsr & Hsw).
    unfold throttle. rewrite Hsb, Hss, Hso, Hst', Hsr, Hsw.
    rewrite Ho, Ht, Hrf, Hwbt, Hw, Hok, Ha, Hb, Hr, Hins, Herr.
    unfold st0. cbn [set_stats add_active_requests buffer options stats timeout
                     resumeFunction writeBufferTotal written inserted ok error
                     active_requests retries batch set_options opt_buffer
                     opt_timeout opt_throttle].
    split; [reflexivity|]. split; [reflexivity|].
    split.
    { unfold batch_throttle, throttle. cbn [set_stats options opt_throttle].
      cbv zeta.
      destruct (negb (Nat.eqb (length (positions 503 items)) 0));
        [destruct (opt_throttle (options st) - 2 <? 20) eqn:E;
         [apply Z.ltb_lt in E|apply Z.ltb_ge in E]|destruct climb]; lia. }
    repeat (split; [reflexivity || lia|]).
    split.
    { rewrite Hout, !dispatched_app, Hd.
      destruct ((active_requests (stats (fst v)) <? throttle (fst v))
                && flooding (fst v)); reflexivity. }
    exists (positions 503 items).
    split; [reflexivity|]. split; [reflexivity|]. split; [lia|].
    right. exists items.
    split; [reflexivity|]. split; [reflexivity|]. split; [lia|].
    pose proof (count_if_split items) as Hsum.
    unfold positions. rewrite positions_length. lia.
  - destruct (bulk_callback_failure wb err resp climb st) as (e & ->); [auto|].
    unfold throttle. cbn. repeat split; try lia.
    exists []. rewrite app_nil_r. cbn. repeat split; try lia. left. auto.
Qed.

(** ** X11 - X13: the two ways a backend call ends *)

(** X11: a call that ends with an error, or with a reply that is absent or
    has no [items], releases its request slot and adds the current value
    of [writeBufferTotal] to [error]; it emits exactly one event, an error
    carrying the backend's error (or the text 'invalid resp from es bulk
    index operation') and the reply, and no stats event; it leaves the
    buffer, [flooding], the throttle and the other counters as they were
    and resumes nobody. *)
Theorem X11_failed_call_only_counts (wb : list value) (err : value)
  (resp : Response) (climb : bool) (st : State) :
  truthy err = true \/ items_of resp = None ->
  let r := bulk_callback wb err resp climb st in
  snd r = [Emit_error
             (mkIndexError
                (if truthy err then err
                 else Str "invalid resp from es bulk index operation")
                Null (RawResp resp))]
  /\ error (stats (fst r)) = error (stats st) + writeBufferTotal st
  /\ active_requests (stats (fst r)) = active_requests (stats st) - 1
  /\ buffer (fst r) = buffer st
  /\ flooding (fst r) = flooding st
  /\ options (fst r) = options st
  /\ inserted (stats (fst r)) = inserted (stats st)
  /\ retries (stats (fst r)) = retries (stats st)
  /\ written (stats (fst r)) = written (stats st)
  /\ resumeFunction (fst r) = resumeFunction st.
Proof.
  intros H. unfold bulk_callback.
  destruct (truthy err); [cbn; repeat split; lia|].
  destruct H as [H|H]; [discriminate|]. rewrite H.
  cbn. repeat split; lia.
Qed.

Lemma X11_failed_call_only_counts_witness :
  let st := set_flooding true
              (set_writeBufferTotal 3 (BufferedBulkStream None)) in
  let r := bulk_callback [doc 1; doc 2] (Str "ETIMEDOUT") NoResponse false st in
  snd r = [Emit_error (mkIndexError (Str "ETIMEDOUT") Null (RawResp NoResponse))]
  /\ error (stats (fst r)) = 3
  /\ active_requests (stats (fst r)) = -1
  /\ buffer (fst r) = []
  /\ flooding (fst r) = true
  /\ options (fst r) = default_options
  /\ inserted (stats (fst r)) = 0
  /\ retries (stats (fst r)) = 0
  /\ written (stats (fst r)) = 0
  /\ resumeFunction (fst r) = Noop.
Proof.
  apply (X11_failed_call_only_counts [doc 1; doc 2] (Str "ETIMEDOUT")
           NoResponse false
           (set_flooding true (set_writeBufferTotal 3 (BufferedBulkStream None)))).
  left. reflexivity.
Defined.

(** X12: a call that ends with a reply that has [items] releases its
    request slot, classifies the reply, and then, exactly when the stream
    is flooding and [active_requests] is now below the throttle (as
    adjusted by this reply), clears [flooding] and calls the recorded
    [resumeFunction] once; it ends by emitting one stats event, the
    snapshot of the state it leaves, after every error event. *)
Theorem X12_answered_call_resumes_and_reports (wb : list value) (err : value)
  (resp : Response) (items : list Item) (climb : bool) (st : State) :
  truthy err = false ->
  items_of resp = Some items ->
  let r := bulk_callback wb err resp climb st in
  active_requests (stats (fst r)) = active_requests (stats st) - 1
  /\ (if (active_requests (stats (fst r)) <? throttle (fst r)) && flooding st
      then flooding (fst r) = false /\ resumed (snd r) = [resumeFunction st]
      else flooding (fst r) = flooding st /\ resumed (snd r) = [])
  /\ stats_events (snd r) = [snapshot (fst r)]
  /\ exists before, snd r = before ++ [Emit_stats (snapshot (fst r))].
Proof.
  intros He Hi r.
  destruct (bulk_callback_success_resumes wb err resp items climb st He Hi)
    as (Ha & Hres).
  fold r in Ha, Hres.
  split; [exact Ha|]. split; [exact Hres|].
  destruct (bulk_callback_success wb err resp items climb st He Hi)
    as (_ & Hout).
  fold r in Hout. cbv zeta in Hout.
  set (v := validateBulkResponse wb items climb
              (set_stats (add_active_requests (-1) (stats st)) st)) in *.
  destruct (validateBulkResponse_spec wb items climb
              (set_stats (add_active_requests (-1) (stats st)) st))
    as (_ & _ & _ & _ & Hall).
  destruct (errors_dispatch_nothing _ Hall) as (_ & Hs & _).
  fold v in Hs. split.
  - rewrite Hout. unfold stats_events in *. rewrite !flat_map_app, Hs.
    destruct ((active_requests (stats (fst v)) <? throttle (fst v))
              && flooding (fst v)); reflexivity.
  - rewrite Hout, app_assoc. eexists. reflexivity.
Qed.

Lemma X12_answered_call_resumes_and_reports_witness :
  let st := set_resumeFunction (Next 4)
              (set_flooding true
                 (set_stats (add_active_requests 20 zero_stats)
                            (BufferedBulkStream None))) in
  let r := bulk_callback [doc 1; doc 2] Undefined (replied [201]) false st in
  active_requests (stats (fst r)) = 19
  /\ flooding (fst r) = false
  /\ resumed (snd r) = [Next 4]
  /\ stats_events (snd r) = [snapshot (fst r)].
Proof.
  destruct (X12_answered_call_resumes_and_reports [doc 1; doc 2] Undefined
              (replied [201]) [mkItem 201 Undefined] false
              (set_resumeFunction (Next 4)
                 (set_flooding true
                    (set_stats (add_active_requests 20 zero_stats)
                               (BufferedBulkStream None))))
              eq_refl eq_refl) as (H1 & H2 & H3 & _).
  cbv zeta. split; [exact H1|]. split; [apply H2|]. split; [apply H2|exact H3].
Defined.

(** X13: when a batch is shipped and its call fails before any other
    flush has run, the failure is counted in full: [error] grows by the
    pair count of that batch, as [written] did, the request slot is given
    back, and [queued] is what it was before the flush. *)
Theorem X13_flush_then_failure_balances (force : bool) (st : State)
  (wb : list value) (err : value) (resp : Response) (climb : bool) :
  dispatched (snd (flush force st)) = [wb] ->
  truthy err = true \/ items_of resp = None ->
  let st1 := fst (flush force st) in
  let st2 := fst (bulk_callback wb err resp climb st1) in
  written (stats st2) = written (stats st) + half (length wb)
  /\ error (stats st2) = error (stats st) + half (length wb)
  /\ active_requests (stats st2) = active_requests (stats st)
  /\ Snapshot.queued (snapshot st2) = Snapshot.queued (snapshot st).
Proof.
  intros Hd Hfail.
  destruct (flush_full force st)
    as [Hf|(st' & Hf & _ & _ & Hs & _ & _ & _ & Hw & _)];
    rewrite Hf in Hd |- *; cbn [fst snd dispatched] in *; [discriminate|].
  injection Hd as <-.
  destruct (bulk_callback_failure
              (firstn (Z.to_nat (opt_buffer (options st) * 2)) (buffer st))
              err resp climb st' Hfail) as (e & ->).
  cbn [fst]. unfold snapshot.
  cbn [set_stats stats Snapshot.queued]. rewrite Hw, Hs.
  cbn. repeat split; lia.
Qed.

Lemma X13_flush_then_failure_balances_witness :
  let st := set_buffer [action (Str "places") (Str "poi") (Num 1); doc 1]
              (BufferedBulkStream None) in
  let wb := [action (Str "places") (Str "poi") (Num 1); doc 1] in
  let st2 := fst (bulk_callback wb (Str "ECONNRESET") NoResponse false
                    (fst (flush true st))) in
  written (stats st2) = 1
  /\ error (stats st2) = 1
  /\ active_requests (stats st2) = 0
  /\ Snapshot.queued (snapshot st2) = 0.
Proof.
  apply (X13_flush_then_failure_balances true
           (set_buffer [action (Str "places") (Str "poi") (Num 1); doc 1]
              (BufferedBulkStream None))
           [action (Str "places") (Str "poi") (Num 1); doc 1]
           (Str "ECONNRESET") NoResponse false).
  - reflexivity.
  - left. reflexivity.
Defined.

(** ** Lemmas on the accounts of a run *)

Lemma pairs_of_app a b : pairs_of (a ++ b) = pairs_of a + pairs_of b.
Proof.
  unfold pairs_of. induction a as [|x a IH]; cbn [app fold_right];
    [reflexivity|]. rewrite IH. lia.
Qed.

Lemma pairs_of_nonneg a : 0 <= pairs_of a.
Proof.
  unfold pairs_of. induction a as [|x a IH]; cbn [fold_right]; [lia|].
  pose proof (half_nonneg (length x)). lia.
Qed.

Lemma pairs_of_remove_nth k : forall l wb,
  nth_error l k = Some wb ->
  pairs_of (remove_nth k l) = pairs_of l - half (length wb)
  /\ Z.of_nat (length (remove_nth k l)) = Z.of_nat (length l) - 1.
Proof.
  induction k as [|k IH]; intros [|x l] wb H; try discriminate.
  - injection H as <-. unfold pairs_of. cbn [remove_nth fold_right length]. lia.
  - cbn [nth_error] in H. destruct (IH l wb H) as (H1 & H2).
    unfold pairs_of in *. cbn [remove_nth fold_right length]. lia.
Qed.

Lemma half_even (a : list value) :
  even_length a -> 2 * half (length a) = Z.of_nat (length a).
Proof.
  intros [k Hk]. unfold half. rewrite Hk.
  replace (Z.of_nat (2 * k)) with (Z.of_nat k * 2) by lia.
  rewrite Z.div_mul by lia. lia.
Qed.

Lemma flush_account force st :
  let r := flush force st in
  let batches := dispatched (snd r) in
  options (fst r) = options st
  /\ timeout (fst r) = timeout st
  /\ resumeFunction (fst r) = resumeFunction st
  /\ ok (stats (fst r)) = ok (stats st)
  /\ inserted (stats (fst r)) = inserted (stats st)
  /\ error (stats (fst r)) = error (stats st)
  /\ retries (stats (fst r)) = retries (stats st)
  /\ active_requests (stats (fst r))
     = active_requests (stats st) + Z.of_nat (length batches)
  /\ written (stats (fst r)) = written (stats st) + pairs_of batches
  /\ (0 <= writeBufferTotal st -> 0 <= writeBufferTotal (fst r))
  /\ (even_length (buffer st) ->
      even_length (buffer (fst r))
      /\ Forall even_length batches
      /\ 2 * written (stats (fst r)) + Z.of_nat (length (buffer (fst r)))
         = 2 * written (stats st) + Z.of_nat (length (buffer st))).
Proof.
  destruct (flush_full force st)
    as [->|(st' & -> & _ & Hb & Hs & Ho & Ht & Hr & Hw & _)];
    cbn [fst snd dispatched length pairs_of fold_right Z.of_nat].
  - repeat split; auto; try lia.
  - rewrite Hs, Ho, Ht, Hr, Hw.
    cbn [add_active_requests add_written written inserted ok error
         active_requests retries].
    repeat (split; [reflexivity || lia|]).
    split; [intros _; apply half_nonneg|].
    intros He.
    destruct (even_prefix _ _ (even_to_nat (opt_buffer (options st))) He)
      as (H1 & H2).
    rewrite Hb. split; [exact H2|]. split; [constructor; [exact H1|constructor]|].
    pose proof (half_even _ H1) as Hh.
    pose proof (firstn_skipn (Z.to_nat (opt_buffer (options st) * 2)) (buffer st))
      as Hsplit.
    apply (f_equal (@length value)) in Hsplit. rewrite length_app in Hsplit.
    lia.
Qed.

Section RunFacts.

Variable JSON_parse : string -> option value.

(** A write either drops the chunk or pushes a pair and flushes. *)
Lemma _write_account chunk next st r :
  _write JSON_parse chunk next st = Normal r ->
  (fst r = set_resumeFunction (Next next)
             (set_timeout true (set_stats (add_error 1 (stats st)) st))
   /\ dispatched (snd r) = [])
  \/ (exists a d,
        let f := flush false (set_buffer (buffer st ++ [a; d])
                                (set_stats (add_ok 1 (stats st)) st)) in
        fst r = set_resumeFunction (Next next) (set_timeout true (fst f))
        /\ dispatched (snd r) = dispatched (snd f)).
Proof.
  intros H.
  destruct (_write_cases JSON_parse chunk next st r H)
    as (st1 & parsed & flushed & Hcase & -> & ->).
  assert (Hdis : dispatched (parsed ++ flushed
                   ++ [Clear_timeout; Set_timeout (opt_timeout (options st1))]
                   ++ (if flooding st1 then [] else [Call (Next next)]))
                 = dispatched parsed ++ dispatched flushed).
  { rewrite !dispatched_app. destruct (flooding st1); cbn; now rewrite app_nil_r. }
  rewrite Hdis.
  destruct Hcase as [(-> & -> & msg & ->)|(a & d & Hf & ->)].
  - left. split; reflexivity.
  - right. exists a, d. cbv zeta. rewrite <- Hf. split; reflexivity.
Qed.

End RunFacts.

Lemma step_accounted JSON_parse o sys i sys' out :
  accounted o sys ->
  step JSON_parse sys i = Some (sys', out) ->
  accounted o sys'
  /\ written (stats (stream sys)) <= written (stats (stream sys'))
  /\ inserted (stats (stream sys)) <= inserted (stats (stream sys'))
  /\ error (stats (stream sys)) <= error (stats (stream sys'))
  /\ retries (stats (stream sys)) <= retries (stats (stream sys'))
  /\ ok (stats (stream sys)) <= ok (stats (stream sys')).
Proof.
  unfold accounted. cbv zeta.
  intros (Hob & Hot & Hth & Hact & Hacc & Hwbt & Hev & Hpend).
  assert (Hflush : forall force st0 pending,
            options st0 = options (stream sys) ->
            0 <= writeBufferTotal st0 ->
            even_length (buffer st0) ->
            let r := flush force st0 in
            opt_buffer (options (fst r)) = opt_buffer (options (BufferedBulkStream o))
            /\ opt_timeout (options (fst r)) = opt_timeout (options (BufferedBulkStream o))
            /\ Z.min 20 (opt_throttle (options (BufferedBulkStream o))) <= throttle (fst r)
            /\ active_requests (stats (fst r)) - Z.of_nat (length (pending ++ dispatched (snd r)))
               = active_requests (stats st0) - Z.of_nat (length pending)
            /\ 2 * written (stats (fst r)) + Z.of_nat (length (buffer (fst r)))
               = 2 * written (stats st0) + Z.of_nat (length (buffer st0))
            /\ 0 <= writeBufferTotal (fst r)
            /\ even_length (buffer (fst r))
            /\ (Forall even_length pending ->
                Forall even_length (pending ++ dispatched (snd r)))
            /\ written (stats st0) <= written (stats (fst r))
            /\ inserted (stats (fst r)) = inserted (stats st0)
            /\ error (stats (fst r)) = error (stats st0)
            /\ retries (stats (fst r)) = retries (stats st0)
            /\ ok (stats (fst r)) = ok (stats st0)).
  { intros force st0 pending Ho Hw He.
    destruct (flush_account force st0)
      as (Ho' & _ & _ & Hok & Hins & Herr & Hret & Ha & Hwr & Hw' & Heven).
    destruct (Heven He) as (He' & Hbs & Hsum).
    cbv zeta. unfold throttle in *. rewrite Ho', Ho, length_app.
    pose proof (pairs_of_nonneg (dispatched (snd (flush force st0)))).
    repeat split; auto; try lia.
    intros Hp. apply Forall_app. auto. }
  destruct i as [chunk next| |force|k err resp climb]; cbn [step].
  - destruct (_write JSON_parse chunk next (stream sys)) as [r|] eqn:Hw;
      [|discriminate].
    intros [= <- <-]. cbn [after stream in_flight fst snd].
    destruct (_write_account JSON_parse chunk next (stream sys) r Hw)
      as [(-> & ->)|(a & d & Hst & Hd)].
    + rewrite app_nil_r. unfold throttle in *. cbn. repeat split; auto; lia.
    + cbv zeta in Hst, Hd. rewrite Hst, Hd.
      set (st0 := set_buffer (buffer (stream sys) ++ [a; d])
                    (set_stats (add_ok 1 (stats (stream sys))) (stream sys))).
      assert (He0 : even_length (buffer st0)).
      { destruct Hev as [m Hm]. exists (S m). unfold st0.
        cbn [set_buffer buffer]. rewrite length_app. cbn [length]. lia. }
      destruct (Hflush false st0 (in_flight sys) eq_refl Hwbt He0)
        as (H1 & H2 & H3 & H4 & H5 & H6 & H7 & H8 & H9 & H10 & H11 & H12 & H13).
      unfold throttle in *.
      cbn [set_resumeFunction set_timeout buffer stats options writeBufferTotal].
      assert (Hlen0 : Z.of_nat (length (buffer st0))
                      = Z.of_nat (length (buffer (stream sys))) + 2).
      { unfold st0. cbn [set_buffer buffer]. rewrite length_app. cbn [length]. lia. }
      unfold st0 in H4, H5, H9, H10, H11, H12, H13.
      cbn [set_buffer set_stats add_ok stats written inserted ok error
           active_requests retries] in H4, H5, H9, H10, H11, H12, H13.
      fold st0 in H4, H5, H9, H10, H11, H12, H13.
      repeat split; auto; lia.
  - destruct (timeout (stream sys)); [|discriminate].
    intros [= <- <-]. cbn [after stream in_flight fst snd].
    destruct (Hflush true (set_timeout false (stream sys)) (in_flight sys)
                eq_refl Hwbt Hev)
      as (H1 & H2 & H3 & H4 & H5 & H6 & H7 & H8 & H9 & H10 & H11 & H12 & H13).
    cbn [set_timeout buffer stats] in *.
    repeat split; auto; lia.
  - intros [= <- <-]. cbn [after stream in_flight fst snd].
    destruct (Hflush force (stream sys) (in_flight sys) eq_refl Hwbt Hev)
      as (H1 & H2 & H3 & H4 & H5 & H6 & H7 & H8 & H9 & H10 & H11 & H12 & H13).
    repeat split; auto; lia.
  - destruct (nth_error (in_flight sys) k) as [wb|] eqn:Hk; [|discriminate].
    intros [= <- <-]. cbn [after stream in_flight fst snd].
    destruct (bulk_callback_full wb err resp climb (stream sys))
      as (C1 & C2 & C3 & _ & _ & C6 & C7 & C8 & C9 & C10 & ps & C11 & C12 & C13 & C14).
    destruct (pairs_of_remove_nth k _ _ Hk) as (_ & Hlen).
    rewrite C10, app_nil_r, C1, C2, C6, C7, C8, C9, C11, C12.
    rewrite length_app, length_command_pairs.
    split.
    + repeat split; auto; try lia.
      * destruct Hev as [m Hm]. exists (m + length ps)%nat.
        rewrite length_app, length_command_pairs. lia.
      * now apply Forall_remove_nth.
    + destruct C14 as [(-> & Hi & He & _)|(items & _ & _ & He & Hsum)];
        repeat split; lia.
Qed.

Lemma reachable_accounted JSON_parse o sys :
  reachable JSON_parse o sys -> accounted o sys.
Proof.
  induction 1 as [|sys i sys' out Hr IH Hs].
  - unfold accounted, start. cbn. unfold throttle. cbn.
    repeat split; try lia; try constructor. exists 0%nat. reflexivity.
  - apply (step_accounted JSON_parse o sys i sys' out IH Hs).
Qed.

Lemma after_retries_reachable :
  reachable no_json (Some (mkOptions 2 1000 20)) after_retries.
Proof.
  apply (run_reachable no_json (Some (mkOptions 2 1000 20)) three_pairs_buffered
           (start (Some (mkOptions 2 1000 20))) after_retries
           (match run no_json (start (Some (mkOptions 2 1000 20)))
                      three_pairs_buffered with
            | Some (_, out) => out
            | None => []
            end)).
  - apply reachable_start.
  - vm_compute. reflexivity.
Defined.

(** ** X14 - X17: invariants of every run *)

(** X14: over a run the stream never changes [options.buffer] or
    [options.timeout], and the throttle never drops below the smaller of
    20 and its initial value; started at 20 or more it stays at 20 or
    more, whatever the replies. *)
Theorem X14_options_over_a_run (JSON_parse : string -> option value)
  (o : option Options) (sys : System) :
  reachable JSON_parse o sys ->
  let o0 := options (BufferedBulkStream o) in
  opt_buffer (options (stream sys)) = opt_buffer o0
  /\ opt_timeout (options (stream sys)) = opt_timeout o0
  /\ Z.min 20 (opt_throttle o0) <= throttle (stream sys)
  /\ (20 <= opt_throttle o0 -> 20 <= throttle (stream sys)).
Proof.
  intros Hr.
  destruct (reachable_accounted JSON_parse o sys Hr) as (H1 & H2 & H3 & _).
  cbv zeta. repeat split; auto. lia.
Qed.

Lemma X14_options_over_a_run_witness :
  let o0 := options (BufferedBulkStream (Some (mkOptions 2 1000 20))) in
  opt_buffer (options (stream after_retries)) = opt_buffer o0
  /\ opt_timeout (options (stream after_retries)) = opt_timeout o0
  /\ Z.min 20 (opt_throttle o0) <= throttle (stream after_retries)
  /\ (20 <= opt_throttle o0 -> 20 <= throttle (stream after_retries)).
Proof.
  exact (X14_options_over_a_run no_json (Some (mkOptions 2 1000 20))
           after_retries after_retries_reachable).
Defined.

(** X15: over a run [active_requests] is exactly the number of backend
    calls that were made and have not called back; it is never negative. *)
Theorem X15_active_requests_counts_pending (JSON_parse : string -> option value)
  (o : option Options) (sys : System) :
  reachable JSON_parse o sys ->
  active_requests (stats (stream sys)) = Z.of_nat (length (in_flight sys))
  /\ 0 <= active_requests (stats (stream sys)).
Proof.
  intros Hr.
  destruct (reachable_accounted JSON_parse o sys Hr) as (_ & _ & _ & H & _).
  split; [exact H|lia].
Qed.

Lemma X15_active_requests_counts_pending_witness :
  active_requests (stats (stream after_retries))
  = Z.of_nat (length (in_flight after_retries))
  /\ 0 <= active_requests (stats (stream after_retries)).
Proof.
  exact (X15_active_requests_counts_pending no_json
           (Some (mkOptions 2 1000 20)) after_retries after_retries_reachable).
Defined.

(** X16: over a run no accepted record and no re-queued pair is lost
    between the buffer and the backend: the pairs written so far plus the
    pairs still buffered are the records accepted ([ok]) plus the pairs
    re-queued ([retries]). *)
Theorem X16_written_plus_buffered (JSON_parse : string -> option value)
  (o : option Options) (sys : System) :
  reachable JSON_parse o sys ->
  written (stats (stream sys)) + pair_count (stream sys)
  = ok (stats (stream sys)) + retries (stats (stream sys)).
Proof.
  intros Hr.
  destruct (reachable_accounted JSON_parse o sys Hr)
    as (_ & _ & _ & _ & H & _ & [m Hm] & _).
  unfold pair_count.
  pose proof (div2_bounds (Z.of_nat (length (buffer (stream sys))))). lia.
Qed.

Lemma X16_written_plus_buffered_witness :
  written (stats (stream after_retries)) + pair_count (stream after_retries)
  = ok (stats (stream after_retries)) + retries (stats (stream after_retries)).
Proof.
  exact (X16_written_plus_buffered no_json (Some (mkOptions 2 1000 20))
           after_retries after_retries_reachable).
Defined.

(** X17: over a run the counters [written], [inserted], [error],
    [retries] and [ok] never decrease from one event to the next, and all
    of them are non-negative. *)
Theorem X17_counters_never_decrease (JSON_parse : string -> option value)
  (o : option Options) (sys : System) (i : input) (sys' : System)
  (out : list effect) :
  reachable JSON_parse o sys ->
  step JSON_parse sys i = Some (sys', out) ->
  (0 <= written (stats (stream sys)) <= written (stats (stream sys')))
  /\ (0 <= inserted (stats (stream sys)) <= inserted (stats (stream sys')))
  /\ (0 <= error (stats (stream sys)) <= error (stats (stream sys')))
  /\ (0 <= retries (stats (stream sys)) <= retries (stats (stream sys')))
  /\ (0 <= ok (stats (stream sys)) <= ok (stats (stream sys'))).
Proof.
  intros Hr Hs.
  assert (Hpos : 0 <= written (stats (stream sys))
                 /\ 0 <= inserted (stats (stream sys))
                 /\ 0 <= error (stats (stream sys))
                 /\ 0 <= retries (stats (stream sys))
                 /\ 0 <= ok (stats (stream sys))).
  { clear Hs. induction Hr as [|s j s' out' Hr IH Hs'].
    - cbn. lia.
    - destruct (step_accounted JSON_parse o s j s' out'
                  (reachable_accounted JSON_parse o s Hr) Hs')
        as (_ & H1 & H2 & H3 & H4 & H5). lia. }
  destruct (step_accounted JSON_parse o sys i sys' out
              (reachable_accounted JSON_parse o sys Hr) Hs)
    as (_ & H1 & H2 & H3 & H4 & H5).
  lia.
Qed.

Lemma X17_counters_never_decrease_witness :
  exists sys' out,
    step no_json after_retries Timer = Some (sys', out)
    /\ (0 <= written (stats (stream after_retries))
        <= written (stats (stream sys')))
    /\ (0 <= inserted (stats (stream after_retries))
        <= inserted (stats (stream sys')))
    /\ (0 <= error (stats (stream after_retries))
        <= error (stats (stream sys')))
    /\ (0 <= retries (stats (stream after_retries))
        <= retries (stats (stream sys')))
    /\ (0 <= ok (stats (stream after_retries)) <= ok (stats (stream sys'))).
Proof.
  do 2 eexists. split; [vm_compute; reflexivity|].
  eapply (X17_counters_never_decrease no_json (Some (mkOptions 2 1000 20))
            after_retries Timer).
  - exact after_retries_reachable.
  - vm_compute. reflexivity.
Defined.

(** ** X18: the queue of a run that loses nothing *)

Lemma dispatched_write_tail next st : dispatched (write_tail next st) = [].
Proof. unfold write_tail. destruct (flooding st); reflexivity. Qed.

Lemma clean_step_balance JSON_parse sys i sys' out :
  clean JSON_parse sys i = true ->
  step JSON_parse sys i = Some (sys', out) ->
  Snapshot.queued (snapshot (stream sys')) - pairs_of (in_flight sys')
  = Snapshot.queued (snapshot (stream sys)) - pairs_of (in_flight sys).
Proof.
  assert (Hflush : forall force st0,
            let r := flush force st0 in
            Snapshot.queued (snapshot (fst r))
            - pairs_of (in_flight sys ++ dispatched (snd r))
            = Snapshot.queued (snapshot st0) - pairs_of (in_flight sys)).
  { intros force st0.
    destruct (flush_account force st0)
      as (_ & _ & _ & _ & Hins & Herr & Hret & _ & Hwr & _).
    cbv zeta. unfold snapshot. cbn [Snapshot.queued].
    rewrite pairs_of_app, Hins, Herr, Hret, Hwr. lia. }
  destruct i as [chunk next| |force|k err resp climb]; cbn [clean step].
  - destruct (decode JSON_parse chunk) as [[| | | | |fields|]|] eqn:Hd;
      try discriminate.
    destruct (first_missing fields) eqn:Hf; [discriminate|]. intros _.
    rewrite (_write_accepts JSON_parse chunk fields next (stream sys) Hd Hf).
    cbv zeta. intros [= <- <-]. cbn [after stream in_flight fst snd].
    rewrite dispatched_app, dispatched_write_tail, app_nil_r.
    change (snapshot (set_resumeFunction (Next next)
              (set_timeout true
                 (fst (flush false
                         (set_buffer (buffer (stream sys) ++ pair_for fields)
                            (set_stats (add_ok 1 (stats (stream sys)))
                                       (stream sys))))))))
      with (snapshot (fst (flush false
                         (set_buffer (buffer (stream sys) ++ pair_for fields)
                            (set_stats (add_ok 1 (stats (stream sys)))
                                       (stream sys)))))).
    rewrite Hflush. reflexivity.
  - intros _. destruct (timeout (stream sys)); [|discriminate].
    intros [= <- <-]. cbn [after stream in_flight fst snd].
    rewrite Hflush. reflexivity.
  - intros _ [= <- <-]. cbn [after stream in_flight fst snd].
    apply Hflush.
  - destruct (nth_error (in_flight sys) k) as [wb|] eqn:Hk; [|discriminate].
    intros Hclean [= <- <-]. cbn [after stream in_flight fst snd].
    destruct (bulk_callback_full wb err resp climb (stream sys))
      as (_ & _ & _ & _ & _ & _ & Hw & _ & _ & Hd & ps & _ & Hr & _ & Hcase).
    destruct (pairs_of_remove_nth k _ _ Hk) as (Hp & _).
    rewrite Hd, app_nil_r, Hp. unfold snapshot. cbn [Snapshot.queued].
    rewrite Hw.
    destruct Hcase as [(-> & Hi & He & Hfail)|(items & Herr & Hit & _ & Hsum)].
    + cbn [length Z.of_nat] in Hr.
      assert (Hwbt : writeBufferTotal (stream sys) = half (length wb)).
      { destruct (truthy err); [now apply Z.eqb_eq|].
        destruct Hfail as [Hfail|Hfail]; [discriminate|].
        rewrite Hfail in Hclean. now apply Z.eqb_eq. }
      lia.
    + rewrite Herr, Hit in Hclean. apply Z.eqb_eq in Hclean. lia.
Qed.

Lemma run_clean JSON_parse o ins :
  forall sys sys' out,
    clean_run JSON_parse o sys ->
    all_clean JSON_parse sys ins = true ->
    run JSON_parse sys ins = Some (sys', out) ->
    clean_run JSON_parse o sys'.
Proof.
  induction ins as [|i ins IH]; intros sys sys' out Hr; cbn [all_clean run].
  - intros _ [= <- _]. exact Hr.
  - intros Hc. apply andb_true_iff in Hc. destruct Hc as (Hc & Hrest).
    destruct (step JSON_parse sys i) as [[sys1 out1]|] eqn:Hs; [|discriminate].
    destruct (run JSON_parse sys1 ins) as [[sys2 out2]|] eqn:Hrun; [|discriminate].
    intros [= <- _]. eapply IH; [|exact Hrest|exact Hrun].
    eapply clean_step; eassumption.
Qed.

(** X18: along a run in which every chunk written is a record that passes
    validation, every reply has one item per pair of its batch, and every
    failed call finds in [writeBufferTotal] the pair count of its own
    batch, the [queued] value that [emitStats] computes is the number of
    pairs handed to the backend and not yet answered; so it is never
    negative. *)
Theorem X18_queued_is_pairs_in_flight (JSON_parse : string -> option value)
  (o : option Options) (sys : System) :
  clean_run JSON_parse o sys ->
  Snapshot.queued (snapshot (stream sys)) = pairs_of (in_flight sys)
  /\ 0 <= Snapshot.queued (snapshot (stream sys)).
Proof.
  intros Hr.
  assert (H : Snapshot.queued (snapshot (stream sys)) = pairs_of (in_flight sys)).
  { induction Hr as [|sys i sys' out Hr IH Hc Hs]; [reflexivity|].
    pose proof (clean_step_balance JSON_parse sys i sys' out Hc Hs). lia. }
  split; [exact H|]. rewrite H. apply pairs_of_nonneg.
Qed.

Lemma X18_queued_is_pairs_in_flight_witness :
  Snapshot.queued (snapshot (stream after_reshipping))
  = pairs_of (in_flight after_reshipping)
  /\ 0 <= Snapshot.queued (snapshot (stream after_reshipping)).
Proof.
  apply (X18_queued_is_pairs_in_flight no_json (Some (mkOptions 2 1000 20))
           after_reshipping).
  apply (run_clean no_json (Some (mkOptions 2 1000 20)) retried_and_reshipped
           (start (Some (mkOptions 2 1000 20))) after_reshipping
           (match run no_json (start (Some (mkOptions 2 1000 20)))
                      retried_and_reshipped with
            | Some (_, out) => out
            | None => []
            end)).
  - apply clean_start.
  - vm_compute. reflexivity.
  - vm_compute. reflexivity.
Defined.

(** ** X19: when a flush starts the backpressure *)

(** X19: a flush sets [flooding] exactly when it ships a batch and, with
    the slot that batch takes, [active_requests] reaches the throttle; in
    every other case it leaves [flooding] as it was. *)
Theorem X19_flush_sets_flooding_at_throttle (force : bool) (st : State) :
  let r := flush force st in
  flooding (fst r)
  = flooding st
    || (Nat.eqb (length (dispatched (snd r))) 1
        && (throttle st <=? active_requests (stats (fst r)))).
Proof.
  destruct (flush_full force st)
    as [->|(st' & -> & _ & _ & Hs & _ & _ & _ & _ & Hfl)];
    cbn [fst snd dispatched length Nat.eqb andb].
  - now rewrite orb_false_r.
  - rewrite Hfl, Hs. reflexivity.
Qed.

(** ** C10: the buffer holds whole pairs *)

(** C10: for an integer [options.buffer] (the type of [opt_buffer]), in
    every state a run of the stream reaches the buffer has an even number
    of elements and so has every batch handed to the backend; hence the
    guard for fewer than 2 elements fires on the empty buffer only, and
    every step from such a state ships batches of whole pairs.  This is so
    because of what the three operations do there: a write of an accepted
    record appends exactly 2 elements (descriptor and data) before its
    flush; a flush that passes its guards removes the first
    [min (options.buffer * 2) (length)] elements, an even number, and
    ships them, and a flush that does not pass them changes nothing; and
    classification appends exactly 2 elements, the slots 2i and 2i+1 of
    the batch, per item with status 503. *)
Theorem C10_buffer_holds_whole_pairs (JSON_parse : string -> option value)
  (o : option Options) (sys : System) :
  reachable JSON_parse o sys ->
  even_length (buffer (stream sys))
  /\ Forall even_length (in_flight sys)
  /\ ((length (buffer (stream sys)) < 2)%nat -> buffer (stream sys) = [])
  /\ (forall i sys' out,
        step JSON_parse sys i = Some (sys', out) ->
        Forall even_length (dispatched out))
  /\ (forall chunk fields next,
        decode JSON_parse chunk = Some (Obj fields) ->
        first_missing fields = None ->
        exists st' out,
          _write JSON_parse chunk next (stream sys) = Normal (st', out)
          /\ concat (dispatched out) ++ buffer st'
             = buffer (stream sys)
               ++ [action (lookup "_index" fields) (lookup "_type" fields)
                          (lookup "_id" fields);
                   lookup "data" fields]
          /\ (length (concat (dispatched out)) + length (buffer st')
              = length (buffer (stream sys)) + 2)%nat)
  /\ (forall force,
        let n := Z.to_nat (opt_buffer (options (stream sys)) * 2) in
        let r := flush force (stream sys) in
        ((length (buffer (stream sys)) < 2)%nat
         \/ (force = false
             /\ Z.of_nat (length (buffer (stream sys)))
                < 2 * opt_buffer (options (stream sys))) ->
         r = (stream sys, []))
        /\ ((2 <= length (buffer (stream sys)))%nat ->
            force = true
            \/ 2 * opt_buffer (options (stream sys))
               <= Z.of_nat (length (buffer (stream sys))) ->
            dispatched (snd r) = [firstn n (buffer (stream sys))]
            /\ buffer (fst r) = skipn n (buffer (stream sys))
            /\ Z.of_nat (length (firstn n (buffer (stream sys))))
               = Z.min (2 * Z.max 0 (opt_buffer (options (stream sys))))
                       (Z.of_nat (length (buffer (stream sys))))
            /\ even_length (firstn n (buffer (stream sys)))))
  /\ (forall wb items climb,
        let st' := fst (validateBulkResponse wb items climb (stream sys)) in
        buffer st'
        = buffer (stream sys) ++ flat_map (command_pair wb) (positions 503 items)
        /\ (forall i, length (command_pair wb i) = 2%nat)
        /\ length (buffer st')
           = (length (buffer (stream sys))
              + 2 * count_if (fun k => (k =? 503)%Z) items)%nat).
Proof.
  intros Hr.
  assert (Hinv : even_length (buffer (stream sys))
                 /\ Forall even_length (in_flight sys)).
  { induction Hr as [|sys i sys' out Hr IH Hs].
    - split; [exists 0%nat; reflexivity|constructor].
    - destruct (step_spec JSON_parse sys i sys' out Hs) as (_ & _ & H).
      apply H. exact IH. }
  destruct Hinv as (Hb & Hp).
  split; [exact Hb|]. split; [exact Hp|].
  split.
  { intros Hlt. destruct Hb as [k Hk]. apply length_zero_iff_nil. lia. }
  split.
  { intros i sys' out Hs.
    destruct (step_spec JSON_parse sys i sys' out Hs) as (_ & _ & H).
    destruct (H (conj Hb Hp)) as (_ & Hp').
    destruct (step_in_flight JSON_parse sys i sys' out Hs) as (pending & Heq).
    rewrite Heq in Hp'. apply Forall_app in Hp'. tauto. }
  split.
  { intros chunk fields next Hd Hf.
    rewrite (_write_accepts JSON_parse chunk fields next (stream sys) Hd Hf).
    cbv zeta. do 2 eexists. split; [reflexivity|].
    cbn [set_resumeFunction set_timeout buffer].
    rewrite dispatched_app, dispatched_write_tail, app_nil_r.
    set (st0 := set_buffer (buffer (stream sys) ++ pair_for fields)
                  (set_stats (add_ok 1 (stats (stream sys))) (stream sys))).
    assert (Hcat : concat (dispatched (snd (flush false st0)))
                   ++ buffer (fst (flush false st0))
                   = buffer (stream sys) ++ pair_for fields).
    { destruct (flush_full false st0) as [->|(st' & -> & _ & Hbuf & _)];
        cbn [fst snd dispatched concat]; [reflexivity|].
      rewrite Hbuf, app_nil_r. apply firstn_skipn. }
    split; [exact Hcat|].
    apply (f_equal (@length value)) in Hcat.
    rewrite !length_app in Hcat. exact Hcat. }
  split.
  { intros force n r. split.
    - intros Hno. apply flush_noop. exact Hno.
    - intros Hlen Hgo.
      destruct (flush_ships force (stream sys) Hlen Hgo)
        as (st' & Hf & Hbuf & _).
      cbv zeta in Hf, Hbuf. fold n in Hf, Hbuf.
      unfold r. rewrite Hf. cbn [fst snd dispatched].
      split; [reflexivity|]. split; [exact Hbuf|].
      split; [rewrite length_firstn; unfold n; lia|].
      apply (even_prefix n (buffer (stream sys))
               (even_to_nat (opt_buffer (options (stream sys)))) Hb). }
  intros wb items climb st'.
  destruct (validateBulkResponse_spec wb items climb (stream sys))
    as (Hbuf & _).
  fold st' in Hbuf. split; [exact Hbuf|]. split; [reflexivity|].
  rewrite Hbuf, length_app, length_command_pairs.
  unfold positions. rewrite positions_length. reflexivity.
Qed.

Lemma C10_buffer_holds_whole_pairs_witness :
  even_length (buffer (stream after_retries))
  /\ Forall even_length (in_flight after_retries)
  /\ ((length (buffer (stream after_retries)) < 2)%nat -> buffer (stream after_retries) = [])
  /\ (forall i sys' out,
        step no_json after_retries i = Some (sys', out) ->
        Forall even_length (dispatched out))
  /\ (forall chunk fields next,
        decode no_json chunk = Some (Obj fields) ->
        first_missing fields = None ->
        exists st' out,
          _write no_json chunk next (stream after_retries) = Normal (st', out)
          /\ concat (dispatched out) ++ buffer st'
             = buffer (stream after_retries)
               ++ [action (lookup "_index" fields) (lookup "_type" fields)
                          (lookup "_id" fields);
                   lookup "data" fields]
          /\ (length (concat (dispatched out)) + length (buffer st')
              = length (buffer (stream after_retries)) + 2)%nat)
  /\ (forall force,
        let n := Z.to_nat (opt_buffer (options (stream after_retries)) * 2) in
        let r := flush force (stream after_retries) in
        ((length (buffer (stream after_retries)) < 2)%nat
         \/ (force = false
             /\ Z.of_nat (length (buffer (stream after_retries)))
                < 2 * opt_buffer (options (stream after_retries))) ->
         r = (stream after_retries, []))
        /\ ((2 <= length (buffer (stream after_retries)))%nat ->
            force = true
            \/ 2 * opt_buffer (options (stream after_retries))
               <= Z.of_nat (length (buffer (stream after_retries))) ->
            dispatched (snd r) = [firstn n (buffer (stream after_retries))]
            /\ buffer (fst r) = skipn n (buffer (stream after_retries))
            /\ Z.of_nat (length (firstn n (buffer (stream after_retries))))
               = Z.min (2 * Z.max 0 (opt_buffer (options (stream after_retries))))
                       (Z.of_nat (length (buffer (stream after_retries))))
            /\ even_length (firstn n (buffer (stream after_retries)))))
  /\ (forall wb items climb,
        let st' := fst (validateBulkResponse wb items climb (stream after_retries)) in
        buffer st'
        = buffer (stream after_retries) ++ flat_map (command_pair wb) (positions 503 items)
        /\ (forall i, length (command_pair wb i) = 2%nat)
        /\ length (buffer st')
           = (length (buffer (stream after_retries))
              + 2 * count_if (fun k => (k =? 503)%Z) items)%nat).
Proof.
  exact (C10_buffer_holds_whole_pairs no_json (Some (mkOptions 2 1000 20))
           after_retries after_retries_reachable).
Defined.
